(** * SQLite MCP server: the query execution core

    A shallow embedding of
      - [src/mcp_server_sqlite/jsonb_utils.py]        (the binary-JSON codec),
      - [src/mcp_server_sqlite/transaction_safety.py] ([safe_execute_query]),
      - [src/mcp_server_sqlite/server.py]             ([_synthesize_memo],
        [_execute_query] and the query tools of [handle_call_tool]),
    and the properties of the specification that concern them.

    Python text is modelled as [string] (a sequence of 8-bit characters);
    case mapping and white space follow Python on the ASCII range, which is
    where every keyword the code tests for lives. *)

From Stdlib Require Import String Ascii List ZArith Bool Arith Lia.
From Stdlib Require Import Numbers.DecimalString.
Import ListNotations.
Open Scope list_scope.
Open Scope string_scope.

Set Implicit Arguments.
Set Warnings "-register-all".

(** ** Python text operations *)

Module Text.

(** [str.isspace] on the ASCII range: TAB, LF, VT, FF, CR, the four
    separators FS, GS, RS, US and the blank. *)
Definition isspace (c : ascii) : bool :=
  let n := nat_of_ascii c in
  (((9 <=? n) && (n <=? 13)) || ((28 <=? n) && (n <=? 32)))%nat.

Fixpoint lstrip (s : string) : string :=
  match s with
  | EmptyString => EmptyString
  | String c s' => if isspace c then lstrip s' else s
  end.

(** [rstrip] drops the trailing white space: a character stays when
    something that stays follows it, or when it is not white space. *)
Fixpoint rstrip (s : string) : string :=
  match s with
  | EmptyString => EmptyString
  | String c s' =>
      match rstrip s' with
      | EmptyString => if isspace c then EmptyString else String c EmptyString
      | r => String c r
      end
  end.

(** [str.strip()] *)
Definition strip (s : string) : string := rstrip (lstrip s).

Definition upper_char (c : ascii) : ascii :=
  let n := nat_of_ascii c in
  if ((97 <=? n) && (n <=? 122))%nat then ascii_of_nat (n - 32) else c.

(** [str.upper()] *)
Fixpoint upper (s : string) : string :=
  match s with
  | EmptyString => EmptyString
  | String c s' => String (upper_char c) (upper s')
  end.

(** [s.startswith(p)] *)
Definition startswith (s p : string) : bool := String.prefix p s.

(** [s.startswith((p1, ..., pn))] *)
Definition startswith_any (s : string) (ps : list string) : bool :=
  existsb (startswith s) ps.

(** [p in s] for two texts *)
Fixpoint contains (s p : string) : bool :=
  String.prefix p s ||
  match s with
  | EmptyString => false
  | String _ s' => contains s' p
  end.

(** [s.replace(old, new)] : every occurrence of [old], leftmost first and
    without overlap.  [skip] counts the characters of a match that are
    still to be dropped. *)
Fixpoint replace_from (skip : nat) (old new s : string) : string :=
  match s with
  | EmptyString => EmptyString
  | String c s' =>
      match skip with
      | S k => replace_from k old new s'
      | O =>
          if String.prefix old s
          then new ++ replace_from (String.length old - 1) old new s'
          else String c (replace_from 0 old new s')
      end
  end.

Fixpoint between (new s : string) : string :=
  match s with
  | EmptyString => new
  | String c s' => new ++ String c (between new s')
  end.

Definition replace (s old new : string) : string :=
  match old with
  | EmptyString => between new s
  | _ => replace_from 0 old new s
  end.

(** [sep.join(xs)] *)
Fixpoint join (sep : string) (xs : list string) : string :=
  match xs with
  | [] => EmptyString
  | [x] => x
  | x :: rest => x ++ sep ++ join sep rest
  end.

(** [str(n)] for a natural number *)
Definition of_nat (n : nat) : string := NilEmpty.string_of_uint (Nat.to_uint n).

End Text.

(** ** The insight ledger ([EnhancedSqliteDatabase._synthesize_memo]) *)

Module Memo.

Definition placeholder : string := "No business insights have been discovered yet.".

Definition chart : string :=
  String (ascii_of_nat 240) (String (ascii_of_nat 159)
    (String (ascii_of_nat 147) (String (ascii_of_nat 138) EmptyString))).

Definition newline : string := String (ascii_of_nat 10) EmptyString.

Definition header : string :=
  chart ++ " Business Intelligence Memo " ++ chart ++ newline ++ newline
    ++ "Key Insights Discovered:" ++ newline ++ newline.

Definition bullet (insight : string) : string := "- " ++ insight.

Definition summary (n : nat) : string :=
  newline ++ "Summary:" ++ newline
    ++ "Analysis has revealed " ++ Text.of_nat n
    ++ " key business insights that suggest opportunities for strategic optimization and growth.".

Definition _synthesize_memo (insights : list string) : string :=
  match insights with
  | [] => placeholder
  | _ =>
      let body := Text.join newline (map bullet insights) in
      let memo := header ++ body in
      if (1 <? List.length insights)%nat
      then memo ++ summary (List.length insights)
      else memo
  end.

(** [db.insights.append(insight)] *)
Definition append_insight (insights : list string) (insight : string) : list string :=
  (insights ++ [insight])%list.

End Memo.


(** ** Python values, dictionaries and exceptions *)

(** The values that travel through the executor: statement parameters,
    cursor cells ([None], [int], [float], [str], [bytes]) and what
    [json.loads] builds.  A float is kept as its IEEE-754 bit pattern. *)
Inductive pyval : Type :=
| PNone
| PBool (b : bool)
| PInt (z : Z)
| PFloat (bits : Z)
| PStr (s : string)
| PBytes (b : list Byte.byte)
| PList (l : list pyval)
| PDict (d : list (string * pyval)).

(** A [dict] with text keys, in insertion order. *)
Definition dict : Type := list (string * pyval).

(** [bool(v)] *)
Definition truthy (v : pyval) : bool :=
  match v with
  | PNone => false
  | PBool b => b
  | PInt z => negb (z =? 0)%Z
  | PFloat bits => negb (Z.land bits (2 ^ 63 - 1) =? 0)%Z
  | PStr s => negb (s =? "")
  | PBytes b => match b with [] => false | _ => true end
  | PList l => match l with [] => false | _ => true end
  | PDict d => match d with [] => false | _ => true end
  end.

(** [isinstance(v, bytes)] *)
Definition is_bytes (v : pyval) : bool :=
  match v with PBytes _ => true | _ => false end.

(** [d.get(k)] *)
Fixpoint dict_get (k : string) (d : dict) : option pyval :=
  match d with
  | [] => None
  | (k', v) :: d' => if k =? k' then Some v else dict_get k d'
  end.

(** [k in d] *)
Definition dict_mem (k : string) (d : dict) : bool :=
  match dict_get k d with Some _ => true | None => false end.

(** [d[k] = v] : an existing key keeps its place, a new one goes last. *)
Fixpoint dict_set (k : string) (v : pyval) (d : dict) : dict :=
  match d with
  | [] => [(k, v)]
  | (k', v') :: d' => if k =? k' then (k, v) :: d' else (k', v') :: dict_set k v d'
  end.

(** [dict(row)] for a cursor row given as its (column name, value) pairs:
    a repeated column name keeps its first place and its last value. *)
Definition dict_of_row (row : list (string * pyval)) : dict :=
  fold_left (fun d kv => dict_set (fst kv) (snd kv) d) row [].

Inductive exn_class : Type :=
| JSONDecodeError
| TypeError
| ValueError
| KeyError
| AttributeError
| IndexError
| SqliteError (name : string).   (* the subclasses of sqlite3.Error *)

(** An exception: its class and [str(e)]. *)
Record exn : Type := Exn { exn_kind : exn_class; exn_msg : string }.

(** [isinstance(e, sqlite3.Error)] *)
Definition is_sqlite_error (e : exn) : bool :=
  match exn_kind e with SqliteError _ => true | _ => false end.

Inductive result (A : Type) : Type :=
| Ok (a : A)
| Raise (e : exn).
Arguments Ok {A} a.
Arguments Raise {A} e.

(** ** Statement parameters *)

(** What [cursor.execute] is given besides the statement: a mapping of named
    parameters or a sequence of positional ones. *)
Inductive binding : Type :=
| BindDict (d : dict)
| BindSeq (l : list pyval).

(** [params], which may be [None]. *)
Definition params : Type := option binding.

(** [bool(params)] *)
Definition params_truthy (p : params) : bool :=
  match p with
  | None => false
  | Some (BindDict d) => match d with [] => false | _ => true end
  | Some (BindSeq l) => match l with [] => false | _ => true end
  end.

(** ['metadata' in params] : a key of a mapping, an element of a sequence. *)
Definition params_mem (k : string) (b : binding) : bool :=
  match b with
  | BindDict d => dict_mem k d
  | BindSeq l => existsb (fun v => match v with PStr s => s =? k | _ => false end) l
  end.

(** [params['metadata']] : a sequence cannot be indexed by a text. *)
Definition params_item (k : string) (b : binding) : result pyval :=
  match b with
  | BindDict d =>
      match dict_get k d with
      | Some v => Ok v
      | None => Raise (Exn KeyError k)
      end
  | BindSeq _ => Raise (Exn TypeError "list indices must be integers or slices, not str")
  end.

(** ** [json.loads] and [validate_json] *)

(** The outcomes of [json.loads] that its documentation names: the parsed
    value, [JSONDecodeError] for a text that is not a JSON document, and
    [TypeError] for an argument that is not text. *)
Inductive loads_outcome : Type :=
| Loaded (v : pyval)
| Malformed (msg : string)
| NotText (msg : string).

Definition result_of_loads (o : loads_outcome) : result pyval :=
  match o with
  | Loaded v => Ok v
  | Malformed m => Raise (Exn JSONDecodeError m)
  | NotText m => Raise (Exn TypeError m)
  end.

(** [try: m except (C1, ..., Cn): h] on values *)
Definition catch_classes {A : Type} (m : result A) (handled : exn_class -> bool)
  (h : result A) : result A :=
  match m with
  | Ok a => Ok a
  | Raise e => if handled (exn_kind e) then h else Raise e
  end.

Definition json_or_type_error (c : exn_class) : bool :=
  match c with JSONDecodeError | TypeError => true | _ => false end.

Section Json.

Variable json_loads : pyval -> loads_outcome.

(** [jsonb_utils.validate_json] *)
Definition validate_json (json_str : pyval) : result bool :=
  catch_classes
    (match result_of_loads (json_loads json_str) with
     | Ok _ => Ok true
     | Raise e => Raise e
     end)
    json_or_type_error
    (Ok false).

End Json.


(** ** The embedded engine behind [sqlite3]

    The engine is a parameter of the development.  What is fixed here is the
    transaction discipline of a connection: statements act on the
    connection's working view of the database; the view becomes the stored
    database at a commit (or at once, outside a transaction) and is thrown
    away by a rollback or when the connection is closed. *)

(** The calls a function makes on its connection, oldest first. *)
Inductive call : Type :=
| Connect
| Execute (sql : string) (bound : params)
| Commit
| Rollback
| Close.

(** What [cursor.execute] leaves in the cursor: the rows of [fetchall], each
    as its (column name, value) pairs, and [rowcount]. *)
Record cursor : Type := Cursor { fetchall : list (list (string * pyval)); rowcount : Z }.

(** [cursor.fetchone()] right after [execute] *)
Definition fetchone (cur : cursor) : option (list (string * pyval)) :=
  match fetchall cur with
  | [] => None
  | row :: _ => Some row
  end.

(** [BEGIN ...] opens a transaction. *)
Definition is_begin (sql : string) : bool :=
  Text.startswith (Text.upper (Text.strip sql)) "BEGIN".

Section Engine.

(** The contents of the database file. *)
Variable DB : Type.

(** One statement run against a view of the database: it completes with the
    new view, its rows and its row count, or it fails with an error and the
    view it leaves behind (a failed statement may have changed rows before
    it stopped). *)
Inductive stmt_outcome : Type :=
| StmtDone (db : DB) (rows : list (list (string * pyval))) (count : Z)
| StmtFailed (e : exn) (db : DB).

Variable run_stmt : string -> params -> DB -> stmt_outcome.

(** The statements before which the driver opens a transaction on its own. *)
Variable implicit_begin : string -> bool.

(** The error, if any, that refuses to commit a view. *)
Variable commit_error : DB -> option exn.

Record db_state : Type := DbState {
  durable : DB;          (* the stored database *)
  working : DB;          (* the view of the open connection *)
  in_txn : bool;         (* a transaction is open *)
  calls : list call      (* the calls made so far *)
}.

(** A computation on the database that returns or raises. *)
Definition M (A : Type) : Type := db_state -> result A * db_state.

Definition ret {A : Type} (a : A) : M A := fun st => (Ok a, st).

Definition raise {A : Type} (e : exn) : M A := fun st => (Raise e, st).

Definition bind {A B : Type} (m : M A) (k : A -> M B) : M B :=
  fun st =>
    match m st with
    | (Ok a, st') => k a st'
    | (Raise e, st') => (Raise e, st')
    end.

(** [try: m except Exception as e: h e] *)
Definition try_except {A : Type} (m : M A) (h : exn -> M A) : M A :=
  fun st =>
    match m st with
    | (Ok a, st') => (Ok a, st')
    | (Raise e, st') => h e st'
    end.

(** A value-level computation used inside [M]. *)
Definition lift {A : Type} (r : result A) : M A := fun st => (r, st).

Notation "x <- m ;; k" := (bind m (fun x => k))
  (at level 61, m at next level, right associativity).
Notation "m ;;; k" := (bind m (fun _ => k))
  (at level 61, right associativity).

Definition record_call (c : call) (st : db_state) : db_state :=
  DbState (durable st) (working st) (in_txn st) (calls st ++ [c])%list.

(** [sqlite3.connect(db_path)] : a fresh view of the stored database. *)
Definition connect : M unit :=
  fun st => (Ok tt, DbState (durable st) (durable st) false (calls st ++ [Connect])%list).

(** [conn.close()] : what was not committed is lost. *)
Definition close : M unit :=
  fun st => (Ok tt, DbState (durable st) (durable st) false (calls st ++ [Close])%list).

(** The view after a statement: outside a transaction it is stored at once. *)
Definition after_stmt (st : db_state) (txn : bool) (db' : DB) : db_state :=
  DbState (if txn then durable st else db') db' txn (calls st).

(** [cursor.execute(sql, bound)] *)
Definition cursor_execute (sql : string) (bound : params) : M cursor :=
  fun st0 =>
    let st := record_call (Execute sql bound) st0 in
    if is_begin sql then
      if in_txn st
      then (Raise (Exn (SqliteError "OperationalError")
                       "cannot start a transaction within a transaction"), st)
      else (Ok (Cursor [] (-1)), DbState (durable st) (working st) true (calls st))
    else
      let txn := in_txn st || implicit_begin sql in
      match run_stmt sql bound (working st) with
      | StmtDone db' rows n => (Ok (Cursor rows n), after_stmt st txn db')
      | StmtFailed e db' => (Raise e, after_stmt st txn db')
      end.

(** [conn.commit()] *)
Definition commit : M unit :=
  fun st0 =>
    let st := record_call Commit st0 in
    if in_txn st then
      match commit_error (working st) with
      | Some e => (Raise e, st)
      | None => (Ok tt, DbState (working st) (working st) false (calls st))
      end
    else (Ok tt, st).

(** [conn.rollback()] *)
Definition rollback : M unit :=
  fun st0 =>
    let st := record_call Rollback st0 in
    (Ok tt, DbState (durable st) (durable st) false (calls st)).

(** [with closing(sqlite3.connect(db_path)) as conn: body] *)
Definition with_connection {A : Type} (body : M A) : M A :=
  fun st =>
    match connect st with
    | (Ok _, st1) =>
        match body st1 with
        | (r, st2) => (r, snd (close st2))
        end
    | (Raise e, st1) => (Raise e, st1)
    end.

(** ** [transaction_safety.safe_execute_query] *)

Definition is_read_query (query : string) : bool :=
  Text.startswith (Text.upper (Text.strip query)) "SELECT".

Definition affected_rows (n : Z) : list dict := [[("affected_rows", PInt n)]].

Definition safe_execute_query (query : string) (p : params) : M (list dict) :=
  with_connection
    (try_except
       ((if negb (is_read_query query)
         then cursor_execute "BEGIN TRANSACTION" None ;;; ret tt
         else ret tt) ;;;
        cur <- (if params_truthy p
                then cursor_execute query p
                else cursor_execute query None) ;;
        if is_read_query query
        then ret (map dict_of_row (fetchall cur))
        else commit ;;; ret (affected_rows (rowcount cur)))
       (fun e =>
          (if negb (is_read_query query)
           then try_except rollback (fun _ => ret tt)
           else ret tt) ;;;
          raise e)).

(** ** The binary-JSON codec ([jsonb_utils]) *)

(** [result[0] if result else None] *)
Definition first_column (row : option (list (string * pyval))) : pyval :=
  match row with
  | Some ((_, v) :: _) => v
  | _ => PNone
  end.

Definition convert_to_jsonb (json_str : pyval) : M pyval :=
  try_except
    (cur <- cursor_execute "SELECT jsonb(?)" (Some (BindSeq [json_str])) ;;
     ret (first_column (fetchone cur)))
    (fun _ => ret PNone).

Definition convert_from_jsonb (jsonb_data : pyval) : M pyval :=
  try_except
    (cur <- cursor_execute "SELECT json(?)" (Some (BindSeq [jsonb_data])) ;;
     ret (first_column (fetchone cur)))
    (fun _ => ret PNone).

(** ** [EnhancedSqliteDatabase._execute_query] *)

(** [json.loads], a parameter with its documented outcomes. *)
Variable json_loads : pyval -> loads_outcome.

(** The module constant [JSONB_ENABLED] and
    [self.version_info['has_jsonb_support']]. *)
Variable JSONB_ENABLED : bool.
Variable has_jsonb_support : bool.

(** [SqliteErrorHandler], whose module is outside this development: the
    [is_json_related] flag and the suggestions of [analyze_sqlite_error], and
    the message of [extract_json_error_details].  The statement is passed as
    the Python value the caller holds. *)
Variable is_json_related : exn -> pyval -> params -> bool.
Variable suggestions : exn -> pyval -> params -> list string.
Variable json_error_message : exn -> string -> string.

Definition rbind {A B : Type} (r : result A) (k : A -> result B) : result B :=
  match r with
  | Ok a => k a
  | Raise e => Raise e
  end.

(** [try: r except Exception: h] on values *)
Definition rcatch {A : Type} (r : result A) (h : A) : A :=
  match r with
  | Ok a => a
  | Raise _ => h
  end.

(** [params and 'metadata' in params] *)
Definition has_metadata_param (p : params) : bool :=
  match p with
  | Some b => params_truthy p && params_mem "metadata" b
  | None => false
  end.

(** [params['metadata']] once [params] is known not to be [None] *)
Definition metadata_param (p : params) : result pyval :=
  match p with
  | Some b => params_item "metadata" b
  | None => Raise (Exn TypeError "'NoneType' object is not subscriptable")
  end.

(** Lines 306 to 321: the statement after the attempt to route the metadata
    placeholder through [jsonb(?)].  The value [validate_json] returns is
    not looked at; only an exception would skip the replacement. *)
Definition route_metadata (query : string) (p : params) : result string :=
  if (Text.contains query "INSERT INTO memory_journal"
      || Text.contains query "UPDATE memory_journal SET")
     && has_metadata_param p
  then
    rbind (metadata_param p) (fun metadata =>
      if truthy metadata
      then
        Ok (rcatch
              (rbind (validate_json json_loads metadata) (fun _ =>
                 if negb (Text.contains query "jsonb(?)")
                 then Ok (Text.replace query "metadata = ?" "metadata = jsonb(?)")
                 else Ok query))
              query)
      else Ok query)
  else Ok query.

(** Lines 295 to 323: the statement that is sent to the engine. *)
Definition jsonb_query (query : string) (p : params) : string :=
  if JSONB_ENABLED && has_jsonb_support then
    if Text.startswith_any (Text.upper (Text.strip query)) ["INSERT"; "UPDATE"]
       && Text.contains query "memory_journal"
       && Text.contains query "metadata"
    then rcatch (route_metadata query p) query
    else query
  else query.

Definition write_prefixes : list string :=
  ["INSERT"; "UPDATE"; "DELETE"; "CREATE"; "DROP"; "ALTER"].

(** Line 334: the statements that are committed and answered with their row
    count. *)
Definition is_write_query (query : string) : bool :=
  Text.startswith_any (Text.upper (Text.strip query)) write_prefixes.

(** Lines 355 to 364, for one item of a row. *)
Definition decode_item (row : dict) (key : string) (value : pyval) : M dict :=
  if is_bytes value && (key =? "metadata")
  then
    try_except
      (json_str <- convert_from_jsonb value ;;
       if truthy json_str
       then parsed <- lift (result_of_loads (json_loads json_str)) ;;
            ret (dict_set key parsed row)
       else ret row)
      (fun _ => ret row)
  else ret row.

(** [for key, value in row.items(): ...] over the items the row had when the
    loop began; an assignment to an existing key changes no other item. *)
Fixpoint decode_items (row : dict) (items : list (string * pyval)) : M dict :=
  match items with
  | [] => ret row
  | (key, value) :: rest =>
      row' <- decode_item row key value ;;
      decode_items row' rest
  end.

Definition decode_row (row : dict) : M dict := decode_items row row.

(** [for row in results: ...] *)
Fixpoint decode_results (results : list dict) : M (list dict) :=
  match results with
  | [] => ret []
  | row :: rest =>
      row' <- decode_row row ;;
      rest' <- decode_results rest ;;
      ret (row' :: rest')
  end.

Definition first_suggestion (l : list string) : string :=
  match l with
  | s :: _ => s
  | [] => "Check JSON syntax"
  end.

(** Lines 375 to 400: the error that leaves the inner handler. *)
Definition enrich (e : exn) (query : string) (p : params) : exn :=
  if is_json_related e (PStr query) p
  then Exn (exn_kind e)
           ("JSON Error in query: " ++ json_error_message e query
              ++ ". Suggestion: " ++ first_suggestion (suggestions e (PStr query) p))
  else e.

Definition _execute_query (query0 : string) (p : params) : M (list dict) :=
  with_connection
    (let query := jsonb_query query0 p in
     try_except
       (cur <- (if params_truthy p
                then cursor_execute query p
                else cursor_execute query None) ;;
        if is_write_query query
        then commit ;;; ret (affected_rows (rowcount cur))
        else
          let results := map dict_of_row (fetchall cur) in
          if JSONB_ENABLED && has_jsonb_support
          then decode_results results
          else ret results)
       (fun e => raise (enrich e query p))).

(** ** The query tools of [handle_call_tool] (lines 925 to 987) *)

(** A tool's answer: the text [str(results)] of a result list, or a fixed
    text. *)
Inductive reply : Type :=
| ReplyResults (results : list dict)
| ReplyText (text : string).

(** The tools that [handle_call_tool] serves before it reaches the query
    tools. *)
Definition earlier_tools : list string :=
  ["list_tables"; "describe_table"; "append_insight"; "validate_json";
   "test_jsonb_conversion"; "vacuum_database"; "analyze_database";
   "integrity_check"; "database_stats"; "index_usage_stats";
   "create_fts_table"; "rebuild_fts_index"; "fts_search"].

Definition type_name (v : pyval) : string :=
  match v with
  | PNone => "NoneType"
  | PBool _ => "bool"
  | PInt _ => "int"
  | PFloat _ => "float"
  | PStr _ => "str"
  | PBytes _ => "bytes"
  | PList _ => "list"
  | PDict _ => "dict"
  end.

(** [arguments["query"]] as the text whose [strip] is then called *)
Definition query_argument (arguments : dict) : result string :=
  match dict_get "query" arguments with
  | None => Raise (Exn KeyError "'query'")
  | Some (PStr q) => Ok q
  | Some v => Raise (Exn AttributeError
                       ("'" ++ type_name v ++ "' object has no attribute 'strip'"))
  end.

(** Lines 925 to 951 *)
Definition query_tool (name : string) (arguments : option dict) : M reply :=
  match arguments with
  | Some ((_ :: _) as args) =>
      if name =? "read_query" then
        q <- lift (query_argument args) ;;
        if negb (Text.startswith (Text.upper (Text.strip q)) "SELECT")
        then raise (Exn ValueError "Only SELECT queries are allowed for read_query")
        else results <- _execute_query q None ;; ret (ReplyResults results)
      else if name =? "write_query" then
        q <- lift (query_argument args) ;;
        if Text.startswith (Text.upper (Text.strip q)) "SELECT"
        then raise (Exn ValueError "SELECT queries are not allowed for write_query")
        else results <- _execute_query q None ;; ret (ReplyResults results)
      else if name =? "create_table" then
        q <- lift (query_argument args) ;;
        if negb (Text.startswith (Text.upper (Text.strip q)) "CREATE TABLE")
        then raise (Exn ValueError "Only CREATE TABLE statements are allowed")
        else _execute_query q None ;;; ret (ReplyText "Table created successfully")
      else raise (Exn ValueError ("Unknown tool: " ++ name))
  | _ => raise (Exn ValueError "Missing arguments")
  end.

(** [arguments.get("query", "") if arguments else ""] *)
Definition query_or_empty (arguments : option dict) : pyval :=
  match arguments with
  | Some ((_ :: _) as args) =>
      match dict_get "query" args with
      | Some v => v
      | None => PStr ""
      end
  | _ => PStr ""
  end.

(** Lines 953 to 987: every exception becomes an error text. *)
Definition error_reply (e : exn) (arguments : option dict) : reply :=
  if is_sqlite_error e
  then
    let error_analysis_suggestions := suggestions e (query_or_empty arguments) None in
    if is_json_related e (query_or_empty arguments) None
       && match error_analysis_suggestions with [] => false | _ => true end
    then ReplyText ("Database error: " ++ exn_msg e ++ Memo.newline
                      ++ "Suggestion: " ++ hd "" error_analysis_suggestions)
    else ReplyText ("Database error: " ++ exn_msg e)
  else ReplyText ("Error: " ++ exn_msg e).

(** [handle_call_tool] for a tool that is not one of [earlier_tools]. *)
Definition handle_call_tool (name : string) (arguments : option dict) : M reply :=
  try_except (query_tool name arguments)
             (fun e => ret (error_reply e arguments)).

End Engine.

(** ** Statement classes, as section 3 of the specification words them *)

Inductive statement_class : Type := Read | Write | SchemaChange.

Definition is_write_class (query : string) : bool :=
  Text.startswith_any (Text.upper (Text.strip query)) ["INSERT"; "UPDATE"; "DELETE"].

Definition is_schema_class (query : string) : bool :=
  Text.startswith_any (Text.upper (Text.strip query)) ["CREATE"; "DROP"; "ALTER"].

(** The class of a statement, decided on its trimmed, upper-cased text; a
    statement of no class has none. *)
Definition classify (query : string) : option statement_class :=
  if Text.startswith (Text.upper (Text.strip query)) "SELECT" then Some Read
  else if is_write_class query then Some Write
  else if is_schema_class query then Some SchemaChange
  else None.

(** The parameters that reach [cursor.execute]: an empty or absent
    collection is not passed at all. *)
Definition bound_params (p : params) : params :=
  if params_truthy p then p else None.


(** ** A sample engine for the concrete examples

    The database is the table [test_safety (id INTEGER PRIMARY KEY, name
    TEXT)] of [test_transaction_safety.py]; the engine answers the
    statements that the examples send and refuses every other one. *)

Module Sample.

Definition table : Type := list (Z * string).

Definition has_id (i : Z) (db : table) : bool :=
  existsb (fun r => (fst r =? i)%Z) db.

Definition integrity_error : exn :=
  Exn (SqliteError "IntegrityError") "UNIQUE constraint failed: test_safety.id".

Definition malformed_json : exn :=
  Exn (SqliteError "OperationalError") "malformed JSON".

Definition syntax_error : exn :=
  Exn (SqliteError "OperationalError") "near: syntax error".

(** The binary form of the array [[1,2]] and of the empty object. *)
Definition blob_1_2 : list Byte.byte :=
  [Byte.x4b; Byte.x13; Byte.x31; Byte.x13; Byte.x32].
Definition blob_empty_object : list Byte.byte := [Byte.x0c].

Definition eqb_bytes (a b : list Byte.byte) : bool :=
  if list_eq_dec Byte.byte_eq_dec a b then true else false.

(** [json.loads] on the texts of the examples. *)
Definition json_loads (v : pyval) : loads_outcome :=
  match v with
  | PStr s =>
      if (s =? "[1, 2]") || (s =? "[1,2]") then Loaded (PList [PInt 1; PInt 2])
      else if s =? "{}" then Loaded (PDict [])
      else Malformed "Expecting value: line 1 column 1 (char 0)"
  | _ => NotText "the JSON object must be str, bytes or bytearray"
  end.

(** The engine's [jsonb(X)] and [json(X)]. *)
Definition sql_jsonb (s : string) : option (list Byte.byte) :=
  if (s =? "[1, 2]") || (s =? "[1,2]") then Some blob_1_2
  else if s =? "{}" then Some blob_empty_object
  else None.

Definition sql_json (b : list Byte.byte) : option string :=
  if eqb_bytes b blob_1_2 then Some "[1,2]"
  else if eqb_bytes b blob_empty_object then Some "{}"
  else None.

Definition test_safety_rows (db : table) : list (list (string * pyval)) :=
  map (fun r => [("id", PInt (fst r)); ("name", PStr (snd r))]) db.

Definition run_stmt (sql : string) (bound : params) (db : table) : stmt_outcome table :=
  if sql =? "INSERT INTO test_safety (id, name) VALUES (1, 'Will fail due to duplicate ID')" then
    if has_id 1 db then StmtFailed integrity_error db
    else StmtDone (db ++ [(1%Z, "Will fail due to duplicate ID")])%list [] 1
  else if sql =? "INSERT OR FAIL INTO test_safety (id, name) VALUES (2, 'b'), (1, 'a')" then
    if has_id 2 db then StmtFailed integrity_error db
    else if has_id 1 db then StmtFailed integrity_error (db ++ [(2%Z, "b")])%list
    else StmtDone (db ++ [(2%Z, "b"); (1%Z, "a")])%list [] 2
  else if sql =? "SELECT * FROM test_safety" then
    StmtDone db (test_safety_rows db) (-1)
  else if sql =? "CREATE TABLE t (id INTEGER PRIMARY KEY, name TEXT)" then
    StmtDone db [] (-1)
  else if sql =? "PRAGMA table_info(test_safety)" then
    StmtDone db
      [[("cid", PInt 0); ("name", PStr "id"); ("type", PStr "INTEGER");
        ("notnull", PInt 0); ("dflt_value", PNone); ("pk", PInt 1)];
       [("cid", PInt 1); ("name", PStr "name"); ("type", PStr "TEXT");
        ("notnull", PInt 0); ("dflt_value", PNone); ("pk", PInt 0)]] (-1)
  else if sql =? "SELECT id, metadata FROM memory_journal" then
    StmtDone db [[("id", PInt 1); ("metadata", PBytes blob_1_2)];
                 [("id", PInt 2); ("metadata", PBytes [Byte.xff])]] (-1)
  else if sql =? "SELECT jsonb(?)" then
    match bound with
    | Some (BindSeq [PStr s]) =>
        match sql_jsonb s with
        | Some b => StmtDone db [[("jsonb(?)", PBytes b)]] (-1)
        | None => StmtFailed malformed_json db
        end
    | _ => StmtFailed malformed_json db
    end
  else if sql =? "SELECT json(?)" then
    match bound with
    | Some (BindSeq [PBytes b]) =>
        match sql_json b with
        | Some t => StmtDone db [[("json(?)", PStr t)]] (-1)
        | None => StmtFailed malformed_json db
        end
    | _ => StmtFailed malformed_json db
    end
  else StmtFailed syntax_error db.

(** The driver opens a transaction before a statement that changes rows. *)
Definition implicit_begin (sql : string) : bool :=
  Text.startswith_any (Text.upper (Text.lstrip sql)) ["INSERT"; "UPDATE"; "DELETE"; "REPLACE"].

Definition commit_error (db : table) : option exn := None.

Definition is_json_related (e : exn) (query : pyval) (p : params) : bool :=
  Text.contains (exn_msg e) "JSON".

Definition suggestions (e : exn) (query : pyval) (p : params) : list string :=
  if Text.contains (exn_msg e) "JSON"
  then ["Validate JSON before insertion"]
  else [].

Definition json_error_message (e : exn) (query : string) : string := exn_msg e.

(** The database after test 1 of [test_transaction_safety.py], at rest. *)
Definition one_row : db_state table :=
  DbState [(1%Z, "Test 1")] [(1%Z, "Test 1")] false [].

Definition safe_execute_query := safe_execute_query run_stmt implicit_begin commit_error.

Definition convert_to_jsonb := convert_to_jsonb run_stmt implicit_begin.

Definition convert_from_jsonb := convert_from_jsonb run_stmt implicit_begin.

Definition _execute_query (enabled supported : bool) :=
  _execute_query run_stmt implicit_begin commit_error json_loads enabled supported
    is_json_related suggestions json_error_message.

Definition handle_call_tool :=
  handle_call_tool run_stmt implicit_begin commit_error json_loads true true
    is_json_related suggestions json_error_message.

End Sample.

(** * Properties *)

(** ** Text *)

Lemma append_assoc (a b c : string) : (a ++ b) ++ c = a ++ (b ++ c).
Proof.
  induction a as [|x a IH]; simpl.
  - reflexivity.
  - now rewrite IH.
Qed.

(** A text has at most one first character: two keywords that begin
    differently cannot both be its prefix. *)
Lemma prefix_first_char (a b : ascii) (p q s : string) :
  String.prefix (String a p) s = true ->
  String.prefix (String b q) s = true ->
  a = b.
Proof.
  destruct s as [|c s]; simpl.
  - discriminate.
  - destruct (ascii_dec a c) as [->|]; [|discriminate].
    destruct (ascii_dec b c) as [->|]; [|discriminate].
    reflexivity.
Qed.

(** A statement that begins with INSERT, UPDATE or DELETE does not begin with
    SELECT. *)
Lemma write_class_not_read (query : string) :
  is_write_class query = true -> is_read_query query = false.
Proof.
  unfold is_write_class, is_read_query, Text.startswith_any, Text.startswith.
  simpl. intros H.
  destruct (String.prefix "SELECT" _) eqn:S; [|reflexivity].
  repeat (apply orb_prop in H; destruct H as [H|H]);
    try discriminate;
    pose proof (@prefix_first_char _ _ _ _ _ H S) as E; discriminate E.
Qed.

Lemma schema_class_not_read (query : string) :
  is_schema_class query = true -> is_read_query query = false.
Proof.
  unfold is_schema_class, is_read_query, Text.startswith_any, Text.startswith.
  simpl. intros H.
  destruct (String.prefix "SELECT" _) eqn:S; [|reflexivity].
  repeat (apply orb_prop in H; destruct H as [H|H]);
    try discriminate;
    pose proof (@prefix_first_char _ _ _ _ _ H S) as E; discriminate E.
Qed.

(** The write test of [_execute_query] covers the Write and the SchemaChange
    class, and what it covers is not a SELECT. *)
Lemma is_write_query_classes (query : string) :
  is_write_query query = is_write_class query || is_schema_class query.
Proof.
  unfold is_write_query, is_write_class, is_schema_class, write_prefixes,
    Text.startswith_any.
  simpl. now rewrite !orb_false_r, !orb_assoc.
Qed.

Lemma insert_update_is_write (s : string) :
  Text.startswith_any s ["INSERT"; "UPDATE"] = true ->
  Text.startswith_any s write_prefixes = true.
Proof.
  unfold Text.startswith_any, write_prefixes. simpl.
  rewrite orb_false_r. intros H.
  apply orb_prop in H. destruct H as [-> | ->]; simpl.
  - reflexivity.
  - now rewrite orb_true_r.
Qed.

(** *** Trimming and case mapping commute and are idempotent, so a test on
    the trimmed, upper-cased text sees neither the white space around a
    statement nor the case of its letters. *)















(** ** The insight ledger *)



(** ** [validate_json] *)

(** [validate_json] returns: both errors of [json.loads] are caught. *)
Lemma validate_json_returns (json_loads : pyval -> loads_outcome) (v : pyval) :
  exists b : bool, validate_json json_loads v = Ok b.
Proof.
  unfold validate_json, catch_classes, result_of_loads.
  destruct (json_loads v); simpl; eauto.
Qed.


(** ** The executor *)

Lemma write_class_not_begin (query : string) :
  is_write_class query = true -> is_begin query = false.
Proof.
  unfold is_write_class, is_begin, Text.startswith_any, Text.startswith.
  simpl. intros H.
  destruct (String.prefix "BEGIN" _) eqn:S; [|reflexivity].
  repeat (apply orb_prop in H; destruct H as [H|H]);
    try discriminate;
    pose proof (@prefix_first_char _ _ _ _ _ H S) as E; discriminate E.
Qed.

Lemma schema_class_not_begin (query : string) :
  is_schema_class query = true -> is_begin query = false.
Proof.
  unfold is_schema_class, is_begin, Text.startswith_any, Text.startswith.
  simpl. intros H.
  destruct (String.prefix "BEGIN" _) eqn:S; [|reflexivity].
  repeat (apply orb_prop in H; destruct H as [H|H]);
    try discriminate;
    pose proof (@prefix_first_char _ _ _ _ _ H S) as E; discriminate E.
Qed.

Lemma read_query_not_begin (query : string) :
  is_read_query query = true -> is_begin query = false.
Proof.
  unfold is_read_query, is_begin, Text.startswith. intros H.
  destruct (String.prefix "BEGIN" _) eqn:S; [|reflexivity].
  pose proof (@prefix_first_char _ _ _ _ _ H S) as E; discriminate E.
Qed.

Lemma classify_read (query : string) :
  classify query = Some Read <-> is_read_query query = true.
Proof.
  unfold classify, is_read_query, Text.startswith.
  destruct (String.prefix "SELECT" _).
  - split; reflexivity.
  - split; [|discriminate].
    destruct (is_write_class query); [discriminate|].
    destruct (is_schema_class query); discriminate.
Qed.


(** The commit test of [_execute_query] is the test of the Write and
    SchemaChange classes. *)
Lemma is_write_query_classify (query : string) :
  is_write_query query
  = match classify query with
    | Some Write | Some SchemaChange => true
    | _ => false
    end.
Proof.
  rewrite is_write_query_classes. unfold classify.
  destruct (Text.startswith (Text.upper (Text.strip query)) "SELECT") eqn:S.
  - destruct (is_write_class query) eqn:W.
    { apply write_class_not_read in W. unfold is_read_query in W. congruence. }
    destruct (is_schema_class query) eqn:C; [|reflexivity].
    apply schema_class_not_read in C. unfold is_read_query in C. congruence.
  - destruct (is_write_class query); [reflexivity|].
    destruct (is_schema_class query); reflexivity.
Qed.

Section Executor.

Variable DB : Type.
Variable run_stmt : string -> params -> DB -> stmt_outcome DB.
Variable implicit_begin : string -> bool.
Variable commit_error : DB -> option exn.


Lemma execute_bound (query : string) (p : params) :
  (if params_truthy p then cursor_execute run_stmt implicit_begin query p else cursor_execute run_stmt implicit_begin query None)
  = cursor_execute run_stmt implicit_begin query (bound_params p).
Proof. unfold bound_params. now destruct (params_truthy p). Qed.

(** The run of [safe_execute_query] on a statement that is not a SELECT and
    that does not itself open a transaction, by what the engine does. *)
Lemma safe_execute_query_not_read (query : string) (p : params) (st : db_state DB) :
  is_read_query query = false ->
  is_begin query = false ->
  safe_execute_query run_stmt implicit_begin commit_error query p st
  = match run_stmt query (bound_params p) (durable st) with
    | StmtFailed e _ =>
        (Raise e,
         DbState (durable st) (durable st) false
           (calls st ++ [Connect; Execute "BEGIN TRANSACTION" None;
                         Execute query (bound_params p); Rollback; Close]))
    | StmtDone db' _ n =>
        match commit_error db' with
        | Some e =>
            (Raise e,
             DbState (durable st) (durable st) false
               (calls st ++ [Connect; Execute "BEGIN TRANSACTION" None;
                             Execute query (bound_params p); Commit; Rollback; Close]))
        | None =>
            (Ok (affected_rows n),
             DbState db' db' false
               (calls st ++ [Connect; Execute "BEGIN TRANSACTION" None;
                             Execute query (bound_params p); Commit; Close]))
        end
    end.
Proof.
  intros Hread Hbegin.
  unfold safe_execute_query. rewrite Hread, execute_bound. simpl.
  unfold with_connection, connect, try_except, bind. simpl.
  unfold cursor_execute at 1. simpl.
  unfold ret at 1. unfold cursor_execute. simpl. rewrite Hbegin. simpl.
  destruct (run_stmt query (bound_params p) (durable st)) as [db' rows n | e db'];
    simpl.
  - unfold commit, bind. simpl.
    destruct (commit_error db') as [e|]; simpl;
      repeat rewrite <- app_assoc; reflexivity.
  - repeat rewrite <- app_assoc. reflexivity.
Qed.

(** The run of [safe_execute_query] on a SELECT. *)
Lemma safe_execute_query_read (query : string) (p : params) (st : db_state DB) :
  is_read_query query = true ->
  calls (snd (safe_execute_query run_stmt implicit_begin commit_error query p st))
  = (calls st ++ [Connect; Execute query (bound_params p); Close])%list.
Proof.
  intros Hread.
  unfold safe_execute_query. rewrite Hread, execute_bound. simpl.
  unfold with_connection, connect, try_except, bind. simpl.
  unfold ret at 1. unfold cursor_execute. simpl.
  rewrite (read_query_not_begin _ Hread). simpl.
  destruct (run_stmt query (bound_params p) (durable st)) as [db' rows n | e db'];
    simpl; repeat rewrite <- app_assoc; reflexivity.
Qed.


(** C1.  A Write statement whose execution raises an engine error: the
    error reaches the caller, a rollback is issued after the statement, and
    the stored database is what it was before the call. *)
Theorem safe_execute_query_rolls_back
  (query : string) (p : params) (st : db_state DB) (e : exn) (db' : DB) :
  is_write_class query = true ->
  run_stmt query (bound_params p) (durable st) = StmtFailed e db' ->
  fst (safe_execute_query run_stmt implicit_begin commit_error query p st) = Raise e
  /\ durable (snd (safe_execute_query run_stmt implicit_begin commit_error query p st)) = durable st
  /\ working (snd (safe_execute_query run_stmt implicit_begin commit_error query p st)) = durable st
  /\ in_txn (snd (safe_execute_query run_stmt implicit_begin commit_error query p st)) = false
  /\ calls (snd (safe_execute_query run_stmt implicit_begin commit_error query p st))
     = (calls st ++ [Connect; Execute "BEGIN TRANSACTION" None;
                     Execute query (bound_params p); Rollback; Close])%list.
Proof.
  intros Hwrite Hfail.
  rewrite safe_execute_query_not_read
    by auto using write_class_not_read, write_class_not_begin.
  rewrite Hfail. simpl. repeat split; reflexivity.
Qed.


End Executor.

(** ** The binary-JSON codec *)

Section Codec.

Variable DB : Type.
Variable run_stmt : string -> params -> DB -> stmt_outcome DB.
Variable implicit_begin : string -> bool.

(** [cursor.execute] of a statement that is not BEGIN, by what the engine
    does with it. *)
Lemma cursor_execute_stmt (sql : string) (bound : params) (st : db_state DB) :
  is_begin sql = false ->
  cursor_execute run_stmt implicit_begin sql bound st
  = match run_stmt sql bound (working st) with
    | StmtDone db' rows n =>
        (Ok (Cursor rows n),
         after_stmt (record_call (Execute sql bound) st)
           (in_txn st || implicit_begin sql) db')
    | StmtFailed e db' =>
        (Raise e,
         after_stmt (record_call (Execute sql bound) st)
           (in_txn st || implicit_begin sql) db')
    end.
Proof.
  intros Hbegin. unfold cursor_execute. rewrite Hbegin. reflexivity.
Qed.

Lemma cursor_execute_calls (sql : string) (bound : params) (st : db_state DB) :
  calls (snd (cursor_execute run_stmt implicit_begin sql bound st))
  = (calls st ++ [Execute sql bound])%list.
Proof.
  unfold cursor_execute.
  destruct (is_begin sql); simpl.
  - destruct (in_txn st); reflexivity.
  - destruct (run_stmt sql bound (working st)); reflexivity.
Qed.

(** Both directions of the codec have the same shape: one statement with one
    parameter, the first cell of its first row, and [None] on any error. *)
Lemma convert_to_jsonb_run (v : pyval) (st : db_state DB) :
  convert_to_jsonb run_stmt implicit_begin v st
  = match cursor_execute run_stmt implicit_begin "SELECT jsonb(?)" (Some (BindSeq [v])) st with
    | (Ok cur, st') => (Ok (first_column (fetchone cur)), st')
    | (Raise _, st') => (Ok PNone, st')
    end.
Proof.
  unfold convert_to_jsonb, try_except, bind, ret.
  destruct (cursor_execute _ _ _ _ st) as [[cur|e] st']; reflexivity.
Qed.

Lemma convert_from_jsonb_run (v : pyval) (st : db_state DB) :
  convert_from_jsonb run_stmt implicit_begin v st
  = match cursor_execute run_stmt implicit_begin "SELECT json(?)" (Some (BindSeq [v])) st with
    | (Ok cur, st') => (Ok (first_column (fetchone cur)), st')
    | (Raise _, st') => (Ok PNone, st')
    end.
Proof.
  unfold convert_from_jsonb, try_except, bind, ret.
  destruct (cursor_execute _ _ _ _ st) as [[cur|e] st']; reflexivity.
Qed.

Lemma convert_from_jsonb_returns (v : pyval) (st : db_state DB) :
  exists r,
    fst (convert_from_jsonb run_stmt implicit_begin v st) = Ok r
    /\ calls (snd (convert_from_jsonb run_stmt implicit_begin v st))
       = (calls st ++ [Execute "SELECT json(?)" (Some (BindSeq [v]))])%list.
Proof.
  rewrite convert_from_jsonb_run.
  pose proof (cursor_execute_calls "SELECT json(?)" (Some (BindSeq [v])) st) as C.
  destruct (cursor_execute _ _ _ _ st) as [[cur|e] st']; simpl in *; eauto.
Qed.

(** C4, as the code has it.  [convert_to_jsonb] makes no syntax check of its
    own: whatever the text, it sends exactly one statement, [SELECT
    jsonb(?)] with the text as its parameter, to the engine, and it never
    raises.  When the engine rejects the text, the value returned is
    [None].  No commit is part of the call. *)
Theorem convert_to_jsonb_asks_engine (j : string) (st : db_state DB) :
  (exists r, fst (convert_to_jsonb run_stmt implicit_begin (PStr j) st) = Ok r)
  /\ calls (snd (convert_to_jsonb run_stmt implicit_begin (PStr j) st))
     = (calls st ++ [Execute "SELECT jsonb(?)" (Some (BindSeq [PStr j]))])%list
  /\ (forall e db',
        run_stmt "SELECT jsonb(?)" (Some (BindSeq [PStr j])) (working st)
        = StmtFailed e db' ->
        fst (convert_to_jsonb run_stmt implicit_begin (PStr j) st) = Ok PNone).
Proof.
  rewrite convert_to_jsonb_run.
  pose proof (cursor_execute_calls "SELECT jsonb(?)" (Some (BindSeq [PStr j])) st) as C.
  split; [|split].
  - destruct (cursor_execute _ _ _ _ st) as [[cur|e] st']; simpl; eauto.
  - destruct (cursor_execute _ _ _ _ st) as [[cur|e] st']; exact C.
  - intros e db' Hfail.
    rewrite cursor_execute_stmt by reflexivity. now rewrite Hfail.
Qed.

Variable json_loads : pyval -> loads_outcome.


End Codec.

(** ** Text search and replacement *)

Lemma prefix_nil (s : string) : String.prefix "" s = true.
Proof. destruct s; reflexivity. Qed.

Lemma prefix_app_l (p q s : string) :
  String.prefix (p ++ q) s = true -> String.prefix p s = true.
Proof.
  revert s. induction p as [|a p IH]; intros s; simpl.
  - intros _. apply prefix_nil.
  - destruct s as [|c s]; simpl; [discriminate|].
    destruct (ascii_dec a c); [apply IH | discriminate].
Qed.

Lemma prefix_app_split (p q s : string) :
  String.prefix (p ++ q) s = true ->
  exists r, s = p ++ r /\ String.prefix q r = true.
Proof.
  revert s. induction p as [|a p IH]; intros s; simpl.
  - intros H. exists s. split; [reflexivity | exact H].
  - destruct s as [|c s]; simpl; [discriminate|].
    destruct (ascii_dec a c) as [->|]; [|discriminate].
    intros H. destruct (IH s H) as (r & -> & Hr).
    exists r. split; [reflexivity | exact Hr].
Qed.

Lemma contains_prefix (s p : string) :
  String.prefix p s = true -> Text.contains s p = true.
Proof. intros H. destruct s; cbn [Text.contains]; rewrite H; reflexivity. Qed.

Lemma contains_tail (c : ascii) (s p : string) :
  Text.contains s p = true -> Text.contains (String c s) p = true.
Proof. intros H. cbn [Text.contains]. rewrite H. apply orb_true_r. Qed.

Lemma contains_app_r (a s p : string) :
  Text.contains s p = true -> Text.contains (a ++ s) p = true.
Proof.
  intros H. induction a as [|c a IH]; simpl.
  - exact H.
  - change (Text.contains (String c (a ++ s)) p = true).
    now apply contains_tail.
Qed.

(** A text that contains [p ++ q] contains [p], and contains [q]. *)
Lemma contains_app_left (s p q : string) :
  Text.contains s (p ++ q) = true -> Text.contains s p = true.
Proof.
  induction s as [|c s IH]; cbn [Text.contains Text.replace_from]; intros H.
  - rewrite orb_false_r in H. rewrite (prefix_app_l _ _ _ H). reflexivity.
  - apply orb_prop in H. destruct H as [H|H].
    + rewrite (prefix_app_l _ _ _ H). reflexivity.
    + rewrite (IH H). apply orb_true_r.
Qed.

Lemma contains_app_right (s p q : string) :
  Text.contains s (p ++ q) = true -> Text.contains s q = true.
Proof.
  induction s as [|c s IH]; intros H.
  - cbn [Text.contains] in H. rewrite orb_false_r in H.
    destruct (prefix_app_split _ _ _ H) as (r & E & Hr).
    rewrite E. now apply contains_app_r, contains_prefix.
  - cbn [Text.contains] in H. apply orb_prop in H. destruct H as [H|H].
    + destruct (prefix_app_split _ _ _ H) as (r & E & Hr).
      rewrite E. now apply contains_app_r, contains_prefix.
    + now apply contains_tail, IH.
Qed.

(** Replacing a text that does not occur changes nothing. *)
Lemma replace_from_absent (old new s : string) :
  Text.contains s old = false -> Text.replace_from 0 old new s = s.
Proof.
  induction s as [|c s IH]; cbn [Text.contains Text.replace_from]; intros H.
  - reflexivity.
  - apply orb_false_elim in H. destruct H as [H1 H2].
    rewrite H1, (IH H2). reflexivity.
Qed.

Lemma replace_absent (s old new : string) :
  old <> "" -> Text.contains s old = false -> Text.replace s old new = s.
Proof.
  intros Hold H. unfold Text.replace.
  destruct old; [contradiction|]. now apply replace_from_absent.
Qed.

(** ** Rows as dictionaries *)

Lemma dict_set_keys (k : string) (v : pyval) (d : dict) :
  dict_mem k d = true -> map fst (dict_set k v d) = map fst d.
Proof.
  unfold dict_mem. induction d as [|[k' v'] d IH]; simpl.
  - discriminate.
  - destruct (String.eqb_spec k k') as [->|Hne]; simpl.
    + reflexivity.
    + intros H. now rewrite IH.
Qed.


Lemma dict_mem_in (k : string) (d : dict) :
  dict_mem k d = true <-> In k (map fst d).
Proof.
  unfold dict_mem. induction d as [|[k' v'] d IH]; simpl.
  - split; [discriminate | contradiction].
  - destruct (String.eqb_spec k k') as [->|Hne].
    + split; auto.
    + rewrite IH. split; [auto | intros [E|H]; [congruence | exact H]].
Qed.




(** ** [_execute_query] *)

Section Server.

Variable DB : Type.
Variable run_stmt : string -> params -> DB -> stmt_outcome DB.
Variable implicit_begin : string -> bool.
Variable commit_error : DB -> option exn.
Variable json_loads : pyval -> loads_outcome.
Variable JSONB_ENABLED : bool.
Variable has_jsonb_support : bool.
Variable is_json_related : exn -> pyval -> params -> bool.
Variable suggestions : exn -> pyval -> params -> list string.
Variable json_error_message : exn -> string -> string.

(** *** The rewriting of the statement *)


(** A statement that is not committed is not rewritten either. *)
Lemma jsonb_query_not_write (query : string) (p : params) :
  is_write_query query = false ->
  jsonb_query json_loads JSONB_ENABLED has_jsonb_support query p = query.
Proof.
  unfold is_write_query, jsonb_query. intros H.
  destruct (JSONB_ENABLED && has_jsonb_support); [|reflexivity].
  destruct (Text.startswith_any _ ["INSERT"; "UPDATE"]) eqn:E; [|reflexivity].
  apply insert_update_is_write in E. congruence.
Qed.

Lemma jsonb_query_routed (query : string) (d : dict) (j : string) (v : pyval) :
  JSONB_ENABLED = true ->
  has_jsonb_support = true ->
  Text.startswith_any (Text.upper (Text.strip query)) ["INSERT"; "UPDATE"] = true ->
  Text.contains query "INSERT INTO memory_journal"
    || Text.contains query "UPDATE memory_journal SET" = true ->
  Text.contains query "jsonb(?)" = false ->
  dict_get "metadata" d = Some (PStr j) ->
  j <> "" ->
  json_loads (PStr j) = Loaded v ->
  jsonb_query json_loads JSONB_ENABLED has_jsonb_support query (Some (BindDict d))
  = Text.replace query "metadata = ?" "metadata = jsonb(?)".
Proof.
  intros -> -> Hprefix Hknown Hfresh Hget Hne Hvalid.
  unfold jsonb_query. rewrite Hprefix. simpl andb.
  assert (Hjournal : Text.contains query "memory_journal" = true).
  { apply orb_prop in Hknown. destruct Hknown as [H|H].
    - exact (contains_app_right query "INSERT INTO " "memory_journal" H).
    - apply (contains_app_left query "memory_journal" " SET").
      exact (contains_app_right query "UPDATE " "memory_journal SET" H). }
  rewrite Hjournal. simpl andb.
  destruct (Text.contains query "metadata") eqn:Hmeta.
  - assert (Hparam : has_metadata_param (Some (BindDict d)) = true).
    { unfold has_metadata_param, params_mem, dict_mem. rewrite Hget.
      destruct d; [discriminate Hget | reflexivity]. }
    unfold route_metadata. rewrite Hknown, Hparam. cbn [andb].
    unfold metadata_param, params_item. rewrite Hget. cbn [rbind].
    assert (Htruthy : truthy (PStr j) = true).
    { simpl. destruct (String.eqb_spec j ""); [contradiction | reflexivity]. }
    rewrite Htruthy.
    destruct (validate_json_returns json_loads (PStr j)) as (b & ->).
    simpl. now rewrite Hfresh.
  - symmetry. apply replace_absent; [discriminate|].
    destruct (Text.contains query "metadata = ?") eqn:C; [|reflexivity].
    rewrite (contains_app_left query "metadata" " = ?" C) in Hmeta. discriminate.
Qed.

(** *** The decoding of the rows *)

Lemma decode_item_run (row : dict) (key : string) (value : pyval) (st : db_state DB) :
  decode_item run_stmt implicit_begin json_loads row key value st
  = if is_bytes value && (key =? "metadata")
    then
      match convert_from_jsonb run_stmt implicit_begin value st with
      | (Ok t, st1) =>
          if truthy t
          then match json_loads t with
               | Loaded v => (Ok (dict_set key v row), st1)
               | _ => (Ok row, st1)
               end
          else (Ok row, st1)
      | (Raise _, st1) => (Ok row, st1)
      end
    else (Ok row, st).
Proof.
  unfold decode_item, try_except, bind, lift, ret.
  destruct (is_bytes value && (key =? "metadata")); [|reflexivity].
  destruct (convert_from_jsonb _ _ value st) as [[t|e] st1]; [|reflexivity].
  destruct (truthy t); [|reflexivity].
  destruct (json_loads t); reflexivity.
Qed.

(** Decoding one item returns a row, keeps the columns of the row, and
    commits nothing. *)
Lemma decode_item_returns (row : dict) (key : string) (value : pyval) (st : db_state DB) :
  exists row' st',
    decode_item run_stmt implicit_begin json_loads row key value st = (Ok row', st')
    /\ (exists l, calls st' = (calls st ++ l)%list /\ ~ In Commit l)
    /\ (dict_mem key row = true -> map fst row' = map fst row).
Proof.
  rewrite decode_item_run.
  destruct (is_bytes value && (key =? "metadata")).
  - destruct (convert_from_jsonb_returns run_stmt implicit_begin value st) as (r & Hr & Hc).
    destruct (convert_from_jsonb _ _ value st) as [[t|e] st1]; simpl in Hr, Hc.
    + assert (Hl : exists l, calls st1 = (calls st ++ l)%list /\ ~ In Commit l).
      { eexists. split; [exact Hc|]. intros [H|[]]. discriminate H. }
      destruct (truthy t); [destruct (json_loads t)|];
        do 2 eexists; (split; [reflexivity | split; [exact Hl|]]);
        intros Hk; try reflexivity.
      now apply dict_set_keys.
    + discriminate Hr.
  - exists row, st. split; [reflexivity|]. split; [|reflexivity].
    exists []. split; [now rewrite app_nil_r | intros []].
Qed.

Lemma decode_items_returns (items : list (string * pyval)) (row : dict) (st : db_state DB) :
  (forall k, In k (map fst items) -> dict_mem k row = true) ->
  exists row' st',
    decode_items run_stmt implicit_begin json_loads row items st = (Ok row', st')
    /\ (exists l, calls st' = (calls st ++ l)%list /\ ~ In Commit l)
    /\ map fst row' = map fst row.
Proof.
  revert row st. induction items as [|[key value] items IH]; intros row st Hkeys.
  - exists row, st. split; [reflexivity|]. split; [|reflexivity].
    exists []. split; [now rewrite app_nil_r | intros []].
  - cbn [decode_items]. unfold bind.
    destruct (decode_item_returns row key value st) as (row1 & st1 & -> & (l1 & Hc1 & Hn1) & Hk1).
    specialize (Hk1 (Hkeys key (or_introl eq_refl))).
    destruct (IH row1 st1) as (row2 & st2 & -> & (l2 & Hc2 & Hn2) & Hk2).
    { intros k Hk. apply dict_mem_in. rewrite Hk1. apply dict_mem_in.
      apply Hkeys. now right. }
    exists row2, st2. split; [reflexivity|]. split.
    + exists (l1 ++ l2)%list. split.
      * now rewrite Hc2, Hc1, app_assoc.
      * intros H. apply in_app_or in H. tauto.
    + congruence.
Qed.

Lemma decode_row_returns (row : dict) (st : db_state DB) :
  exists row' st',
    decode_row run_stmt implicit_begin json_loads row st = (Ok row', st')
    /\ (exists l, calls st' = (calls st ++ l)%list /\ ~ In Commit l)
    /\ map fst row' = map fst row.
Proof.
  apply decode_items_returns. intros k Hk. now apply dict_mem_in.
Qed.

(** Decoding the rows of a result returns as many rows, each one the
    decoding of the row at its place, and commits nothing. *)
Lemma decode_results_returns (results : list dict) (st : db_state DB) :
  exists results' st',
    decode_results run_stmt implicit_begin json_loads results st = (Ok results', st')
    /\ (exists l, calls st' = (calls st ++ l)%list /\ ~ In Commit l)
    /\ Forall2
         (fun row row' =>
            map fst row' = map fst row
            /\ exists sta,
                 fst (decode_row run_stmt implicit_begin json_loads row sta) = Ok row')
         results results'.
Proof.
  revert st. induction results as [|row results IH]; intros st.
  - exists [], st. split; [reflexivity|]. split; [|constructor].
    exists []. split; [now rewrite app_nil_r | intros []].
  - cbn [decode_results]. unfold bind.
    destruct (decode_row_returns row st) as (row1 & st1 & E1 & (l1 & Hc1 & Hn1) & Hk1).
    rewrite E1.
    destruct (IH st1) as (rest & st2 & -> & (l2 & Hc2 & Hn2) & Hall).
    exists (row1 :: rest), st2. split; [reflexivity|]. split.
    + exists (l1 ++ l2)%list. split.
      * now rewrite Hc2, Hc1, app_assoc.
      * intros H. apply in_app_or in H. tauto.
    + constructor; [|exact Hall]. split; [exact Hk1|].
      exists st. now rewrite E1.
Qed.


(** *** The run of a statement that is not committed *)

Lemma Forall2_map_left (A B C : Type) (f : A -> B) (P : B -> C -> Prop)
  (l : list A) (l' : list C) :
  Forall2 P (map f l) l' -> Forall2 (fun x y => P (f x) y) l l'.
Proof.
  revert l'. induction l as [|x l IH]; intros l' H; inversion H; subst;
    constructor; auto.
Qed.

Lemma Forall2_map_same (A B : Type) (f : A -> B) (P : A -> B -> Prop) (l : list A) :
  (forall x, P x (f x)) -> Forall2 P l (map f l).
Proof. intros H. induction l; simpl; constructor; auto. Qed.

Lemma execute_query_read_run (query : string) (p : params) (st : db_state DB) :
  is_write_query query = false ->
  _execute_query run_stmt implicit_begin commit_error json_loads
    JSONB_ENABLED has_jsonb_support is_json_related suggestions json_error_message
    query p st
  = match cursor_execute run_stmt implicit_begin query (bound_params p)
            (snd (connect st)) with
    | (Ok cur, st2) =>
        match (if JSONB_ENABLED && has_jsonb_support
               then decode_results run_stmt implicit_begin json_loads
                      (map dict_of_row (fetchall cur))
               else ret (map dict_of_row (fetchall cur))) st2 with
        | (Ok results, st3) => (Ok results, snd (close st3))
        | (Raise e, st3) =>
            (Raise (enrich is_json_related suggestions json_error_message e query p),
             snd (close st3))
        end
    | (Raise e, st2) =>
        (Raise (enrich is_json_related suggestions json_error_message e query p),
         snd (close st2))
    end.
Proof.
  intros Hread. unfold _execute_query.
  rewrite jsonb_query_not_write, execute_bound by exact Hread.
  unfold with_connection, try_except, bind, raise, connect. cbn [snd fst].
  rewrite Hread.
  destruct (cursor_execute _ _ query _ _) as [[cur|e] st2]; [|reflexivity].
  match goal with
  | |- context [ (if ?c then ?a else ?b) st2 ] =>
      destruct ((if c then a else b) st2) as [[results|e] st3]
  end; reflexivity.
Qed.

(** The post-processing of the fetched rows returns, and keeps the rows in
    number, in order and in their columns. *)
Lemma postprocess_returns (rows : list (list (string * pyval))) (st : db_state DB) :
  exists results' st',
    (if JSONB_ENABLED && has_jsonb_support
     then decode_results run_stmt implicit_begin json_loads (map dict_of_row rows)
     else ret (map dict_of_row rows)) st
    = (Ok results', st')
    /\ (exists l, calls st' = (calls st ++ l)%list /\ ~ In Commit l)
    /\ Forall2
         (fun raw row' =>
            map fst row' = map fst (dict_of_row raw)
            /\ (if JSONB_ENABLED && has_jsonb_support
                then exists sta,
                       fst (decode_row run_stmt implicit_begin json_loads
                              (dict_of_row raw) sta) = Ok row'
                else row' = dict_of_row raw))
         rows results'.
Proof.
  destruct (JSONB_ENABLED && has_jsonb_support).
  - destruct (decode_results_returns (map dict_of_row rows) st)
      as (results' & st' & E & Hc & Hall).
    exists results', st'. split; [exact E|]. split; [exact Hc|].
    apply (@Forall2_map_left _ _ _ dict_of_row
             (fun row row' =>
                map fst row' = map fst row
                /\ exists sta,
                     fst (decode_row run_stmt implicit_begin json_loads row sta)
                     = Ok row')).
    exact Hall.
  - exists (map dict_of_row rows), st. split; [reflexivity|]. split.
    + exists []. split; [now rewrite app_nil_r | intros []].
    + apply Forall2_map_same. intros raw. split; reflexivity.
Qed.

Lemma execute_query_read_result (query : string) (p : params) (st : db_state DB) :
  is_write_query query = false ->
  match cursor_execute run_stmt implicit_begin query (bound_params p)
          (snd (connect st)) with
  | (Ok cur, _) =>
      exists results',
        fst (_execute_query run_stmt implicit_begin commit_error json_loads
               JSONB_ENABLED has_jsonb_support is_json_related suggestions
               json_error_message query p st)
        = Ok results'
        /\ Forall2
             (fun raw row' =>
                map fst row' = map fst (dict_of_row raw)
                /\ (if JSONB_ENABLED && has_jsonb_support
                    then exists sta,
                           fst (decode_row run_stmt implicit_begin json_loads
                                  (dict_of_row raw) sta) = Ok row'
                    else row' = dict_of_row raw))
             (fetchall cur) results'
  | (Raise e, _) =>
      fst (_execute_query run_stmt implicit_begin commit_error json_loads
             JSONB_ENABLED has_jsonb_support is_json_related suggestions
             json_error_message query p st)
      = Raise (enrich is_json_related suggestions json_error_message e query p)
  end.
Proof.
  intros Hread. rewrite execute_query_read_run by exact Hread.
  destruct (cursor_execute _ _ query _ _) as [[cur|e] st2]; [|reflexivity].
  destruct (postprocess_returns (fetchall cur) st2) as (results' & st3 & -> & _ & Hall).
  exists results'. split; [reflexivity | exact Hall].
Qed.

Lemma execute_query_read_calls (query : string) (p : params) (st : db_state DB) :
  is_write_query query = false ->
  exists l,
    calls (snd (_execute_query run_stmt implicit_begin commit_error json_loads
                  JSONB_ENABLED has_jsonb_support is_json_related suggestions
                  json_error_message query p st))
    = (calls st ++ Connect :: Execute query (bound_params p) :: l)%list
    /\ ~ In Commit l.
Proof.
  intros Hread. rewrite execute_query_read_run by exact Hread.
  pose proof (cursor_execute_calls run_stmt implicit_begin query (bound_params p)
                (snd (connect st))) as Hc.
  destruct (cursor_execute _ _ query _ _) as [[cur|e] st2]; simpl in Hc.
  - destruct (postprocess_returns (fetchall cur) st2)
      as (results' & st3 & -> & (l & Hl & Hn) & _).
    exists (l ++ [Close])%list. split.
    + simpl. rewrite Hl, Hc. repeat rewrite <- app_assoc. reflexivity.
    + intros H. apply in_app_or in H. destruct H as [H|[H|[]]];
        [contradiction | discriminate H].
  - exists [Close]. split.
    + simpl. rewrite Hc. repeat rewrite <- app_assoc. reflexivity.
    + intros [H|[]]. discriminate H.
Qed.

Lemma commit_calls (st : db_state DB) :
  calls (snd (commit commit_error st)) = (calls st ++ [Commit])%list.
Proof.
  unfold commit. simpl.
  destruct (in_txn st); [destruct (commit_error (working st))|]; reflexivity.
Qed.

(** Whatever the statement, the first thing the connection sees is the
    statement that the rewriting produced, with the caller's parameters. *)
Lemma execute_query_calls_head (query : string) (p : params) (st : db_state DB) :
  exists l,
    calls (snd (_execute_query run_stmt implicit_begin commit_error json_loads
                  JSONB_ENABLED has_jsonb_support is_json_related suggestions
                  json_error_message query p st))
    = (calls st ++ Connect
         :: Execute (jsonb_query json_loads JSONB_ENABLED has_jsonb_support query p)
              (bound_params p)
         :: l)%list.
Proof.
  unfold _execute_query. rewrite execute_bound.
  unfold with_connection, try_except, bind, raise, connect. cbn [snd fst].
  set (q := jsonb_query json_loads JSONB_ENABLED has_jsonb_support query p).
  match goal with
  | |- context [ cursor_execute run_stmt implicit_begin q (bound_params p) ?s ] =>
      pose proof (cursor_execute_calls run_stmt implicit_begin q (bound_params p) s) as Hc;
      destruct (cursor_execute run_stmt implicit_begin q (bound_params p) s)
        as [[cur|e] st2]
  end; simpl in Hc.
  - destruct (is_write_query q).
    + pose proof (commit_calls st2) as Hcommit.
      destruct (commit commit_error st2) as [[[]|e] st3]; simpl in Hcommit |- *;
        rewrite Hcommit, Hc; eexists; repeat rewrite <- app_assoc; reflexivity.
    + destruct (postprocess_returns (fetchall cur) st2)
        as (results' & st3 & -> & (l & Hl & _) & _).
      simpl. rewrite Hl, Hc. eexists. repeat rewrite <- app_assoc. reflexivity.
  - simpl. rewrite Hc. eexists. repeat rewrite <- app_assoc. reflexivity.
Qed.

(** C3, as the code has it.  With binary JSON on, an INSERT or UPDATE whose
    text has "INSERT INTO memory_journal" or "UPDATE memory_journal SET" and
    no "jsonb(?)" yet, given named parameters whose metadata entry is a
    non-empty valid JSON text, reaches the engine with every "metadata = ?"
    replaced by "metadata = jsonb(?)" (a statement without that text is
    sent as it is), and with the parameters as the caller gave them. *)
Theorem execute_query_routes_metadata
  (query : string) (d : dict) (j : string) (v : pyval) (st : db_state DB) :
  JSONB_ENABLED = true ->
  has_jsonb_support = true ->
  Text.startswith_any (Text.upper (Text.strip query)) ["INSERT"; "UPDATE"] = true ->
  Text.contains query "INSERT INTO memory_journal"
    || Text.contains query "UPDATE memory_journal SET" = true ->
  Text.contains query "jsonb(?)" = false ->
  dict_get "metadata" d = Some (PStr j) ->
  j <> "" ->
  json_loads (PStr j) = Loaded v ->
  jsonb_query json_loads JSONB_ENABLED has_jsonb_support query (Some (BindDict d))
  = Text.replace query "metadata = ?" "metadata = jsonb(?)"
  /\ exists l,
       calls (snd (_execute_query run_stmt implicit_begin commit_error json_loads
                     JSONB_ENABLED has_jsonb_support is_json_related suggestions
                     json_error_message query (Some (BindDict d)) st))
       = (calls st ++ Connect
            :: Execute (Text.replace query "metadata = ?" "metadata = jsonb(?)")
                 (Some (BindDict d))
            :: l)%list.
Proof.
  intros He Hs Hprefix Hknown Hfresh Hget Hne Hvalid.
  pose proof (jsonb_query_routed query d He Hs Hprefix Hknown Hfresh Hget Hne Hvalid) as Hq.
  split; [exact Hq|].
  destruct (execute_query_calls_head query (Some (BindDict d)) st) as (l & Hl).
  exists l. rewrite Hl, Hq.
  replace (bound_params (Some (BindDict d))) with (Some (BindDict d)).
  - reflexivity.
  - unfold bound_params. destruct d; [discriminate Hget | reflexivity].
Qed.



(** *** The query tools *)

(** C7.  A statement of the Write class sent to [read_query], or one of
    the Read class sent to [write_query], is answered with the error text
    of the mismatch; the database and the list of calls on it are what they
    were: the engine is not reached. *)
Theorem wrong_path_fails_fast (query : string) (arguments : dict) (st : db_state DB) :
  dict_get "query" arguments = Some (PStr query) ->
  (is_write_class query = true ->
   handle_call_tool run_stmt implicit_begin commit_error json_loads
     JSONB_ENABLED has_jsonb_support is_json_related suggestions json_error_message
     "read_query" (Some arguments) st
   = (Ok (ReplyText "Error: Only SELECT queries are allowed for read_query"), st))
  /\ (classify query = Some Read ->
      handle_call_tool run_stmt implicit_begin commit_error json_loads
        JSONB_ENABLED has_jsonb_support is_json_related suggestions json_error_message
        "write_query" (Some arguments) st
      = (Ok (ReplyText "Error: SELECT queries are not allowed for write_query"), st)).
Proof.
  intros Hget.
  assert (Hargs : exists kv rest, arguments = kv :: rest).
  { destruct arguments as [|kv rest]; [discriminate Hget | eauto]. }
  destruct Hargs as (kv & rest & ->).
  split.
  - intros Hwrite. apply write_class_not_read in Hwrite.
    unfold is_read_query in Hwrite.
    unfold handle_call_tool, query_tool, try_except, bind, lift, raise, ret,
      query_argument.
    cbn [String.eqb Ascii.eqb Bool.eqb andb]. rewrite Hget, Hwrite. reflexivity.
  - intros Hread. apply classify_read in Hread. unfold is_read_query in Hread.
    unfold handle_call_tool, query_tool, try_except, bind, lift, raise, ret,
      query_argument.
    cbn [String.eqb Ascii.eqb Bool.eqb andb]. rewrite Hget, Hread. reflexivity.
Qed.

End Server.

(** * The properties on the sample engine *)

(** C1 on the failure of [test_transaction_safety.py], with a statement
    that had already inserted a row when it failed. *)
Lemma safe_execute_query_rolls_back_sample :
  is_write_class "INSERT OR FAIL INTO test_safety (id, name) VALUES (2, 'b'), (1, 'a')" = true
  /\ Sample.run_stmt "INSERT OR FAIL INTO test_safety (id, name) VALUES (2, 'b'), (1, 'a')"
       None [(1%Z, "Test 1")]
     = StmtFailed Sample.integrity_error [(1%Z, "Test 1"); (2%Z, "b")]
  /\ fst (Sample.safe_execute_query
            "INSERT OR FAIL INTO test_safety (id, name) VALUES (2, 'b'), (1, 'a')"
            None Sample.one_row)
     = Raise Sample.integrity_error
  /\ durable (snd (Sample.safe_execute_query
                     "INSERT OR FAIL INTO test_safety (id, name) VALUES (2, 'b'), (1, 'a')"
                     None Sample.one_row))
     = [(1%Z, "Test 1")].
Proof.
  split; [reflexivity|]. split; [reflexivity|].
  pose proof (@safe_execute_query_rolls_back _ Sample.run_stmt Sample.implicit_begin
                Sample.commit_error
                "INSERT OR FAIL INTO test_safety (id, name) VALUES (2, 'b'), (1, 'a')"
                None Sample.one_row Sample.integrity_error
                [(1%Z, "Test 1"); (2%Z, "b")] eq_refl eq_refl) as H.
  split; [exact (proj1 H) | exact (proj1 (proj2 H))].
Defined.



(** C3 on an UPDATE that has the text "metadata = ?". *)
Lemma execute_query_routes_metadata_sample :
  jsonb_query Sample.json_loads true true
    "UPDATE memory_journal SET metadata = ? WHERE id = 1"
    (Some (BindDict [("metadata", PStr "[1, 2]")]))
  = "UPDATE memory_journal SET metadata = jsonb(?) WHERE id = 1".
Proof.
  refine (proj1 (@execute_query_routes_metadata _ Sample.run_stmt Sample.implicit_begin
                   Sample.commit_error Sample.json_loads true true
                   Sample.is_json_related Sample.suggestions Sample.json_error_message
                   "UPDATE memory_journal SET metadata = ? WHERE id = 1"
                   [("metadata", PStr "[1, 2]")] "[1, 2]" (PList [PInt 1; PInt 2])
                   Sample.one_row eq_refl eq_refl eq_refl eq_refl eq_refl eq_refl
                   _ eq_refl)).
  discriminate.
Defined.

(** The claim C3 fails on an INSERT: its metadata parameter is valid JSON
    and its placeholder is left as it is. *)
Lemma insert_placeholder_not_routed :
  validate_json Sample.json_loads (PStr "[1, 2]") = Ok true
  /\ jsonb_query Sample.json_loads true true
       "INSERT INTO memory_journal (entry, metadata) VALUES (:entry, :metadata)"
       (Some (BindDict [("entry", PStr "note"); ("metadata", PStr "[1, 2]")]))
     = "INSERT INTO memory_journal (entry, metadata) VALUES (:entry, :metadata)".
Proof. split; reflexivity. Qed.

(** The same UPDATE with a metadata parameter that is not JSON: it is
    rewritten all the same. *)
Lemma invalid_metadata_is_routed :
  validate_json Sample.json_loads (PStr "not json") = Ok false
  /\ jsonb_query Sample.json_loads true true
       "UPDATE memory_journal SET metadata = ? WHERE id = 1"
       (Some (BindDict [("metadata", PStr "not json")]))
     = "UPDATE memory_journal SET metadata = jsonb(?) WHERE id = 1".
Proof. split; reflexivity. Qed.

(** The claim C4 fails on the text [not json]: the engine is asked, and the
    answer of the codec is [None], not an error. *)
Lemma convert_to_jsonb_returns_none :
  validate_json Sample.json_loads (PStr "not json") = Ok false
  /\ Sample.convert_to_jsonb (PStr "not json") Sample.one_row
     = (Ok PNone,
        DbState [(1%Z, "Test 1")] [(1%Z, "Test 1")] false
          [Execute "SELECT jsonb(?)" (Some (BindSeq [PStr "not json"]))]).
Proof. split; reflexivity. Qed.



(** C7 on a DELETE sent to [read_query] and a SELECT sent to
    [write_query]. *)
Lemma wrong_path_fails_fast_sample :
  Sample.handle_call_tool "read_query"
    (Some [("query", PStr "DELETE FROM test_safety")]) Sample.one_row
  = (Ok (ReplyText "Error: Only SELECT queries are allowed for read_query"),
     Sample.one_row)
  /\ Sample.handle_call_tool "write_query"
       (Some [("query", PStr "  select * from test_safety")]) Sample.one_row
     = (Ok (ReplyText "Error: SELECT queries are not allowed for write_query"),
        Sample.one_row).
Proof.
  split.
  - exact (proj1 (@wrong_path_fails_fast _ Sample.run_stmt Sample.implicit_begin
                    Sample.commit_error Sample.json_loads true true
                    Sample.is_json_related Sample.suggestions
                    Sample.json_error_message
                    "DELETE FROM test_safety"
                    [("query", PStr "DELETE FROM test_safety")] Sample.one_row
                    eq_refl) eq_refl).
  - exact (proj2 (@wrong_path_fails_fast _ Sample.run_stmt Sample.implicit_begin
                    Sample.commit_error Sample.json_loads true true
                    Sample.is_json_related Sample.suggestions
                    Sample.json_error_message
                    "  select * from test_safety"
                    [("query", PStr "  select * from test_safety")] Sample.one_row
                    eq_refl) eq_refl).
Defined.


(** * Further properties of the code *)

(** ** [safe_execute_query]: all or nothing *)

Section SafeExecute.

Variable DB : Type.
Variable run_stmt : string -> params -> DB -> stmt_outcome DB.
Variable implicit_begin : string -> bool.
Variable commit_error : DB -> option exn.

(** A statement that is itself a BEGIN meets the transaction that was just
    opened: it fails, and the handler rolls back. *)
Lemma safe_execute_query_begin (query : string) (p : params) (st : db_state DB) :
  is_read_query query = false ->
  is_begin query = true ->
  safe_execute_query run_stmt implicit_begin commit_error query p st
  = (Raise (Exn (SqliteError "OperationalError")
              "cannot start a transaction within a transaction"),
     DbState (durable st) (durable st) false
       (calls st ++ [Connect; Execute "BEGIN TRANSACTION" None;
                     Execute query (bound_params p); Rollback; Close])).
Proof.
  intros Hread Hbegin.
  unfold safe_execute_query. rewrite Hread, execute_bound. simpl.
  unfold with_connection, connect, try_except, bind. simpl.
  unfold cursor_execute at 1. simpl.
  unfold ret at 1. unfold cursor_execute. simpl. rewrite Hbegin. simpl.
  repeat rewrite <- app_assoc. reflexivity.
Qed.

(** For a statement that is not a SELECT: when the call raises, whatever
    raised (the statement, the commit, a second BEGIN), the stored database
    is the one before the call; when it returns, the engine completed the
    statement, the commit was accepted, the stored database is the view the
    statement left, and the answer is its row count. *)
Theorem safe_execute_query_all_or_nothing
  (query : string) (p : params) (st : db_state DB) :
  is_read_query query = false ->
  match fst (safe_execute_query run_stmt implicit_begin commit_error query p st) with
  | Raise _ =>
      durable (snd (safe_execute_query run_stmt implicit_begin commit_error query p st))
      = durable st
  | Ok answer =>
      exists db' rows n,
        run_stmt query (bound_params p) (durable st) = StmtDone db' rows n
        /\ commit_error db' = None
        /\ durable (snd (safe_execute_query run_stmt implicit_begin commit_error query p st))
           = db'
        /\ answer = [[("affected_rows", PInt n)]]
  end.
Proof.
  intros Hread. destruct (is_begin query) eqn:Hbegin.
  - rewrite safe_execute_query_begin by assumption. reflexivity.
  - rewrite safe_execute_query_not_read by assumption.
    destruct (run_stmt query (bound_params p) (durable st)) as [db' rows n | e db'] eqn:R.
    + destruct (commit_error db') eqn:C; simpl.
      * reflexivity.
      * exists db', rows, n. repeat split; assumption || reflexivity.
    + reflexivity.
Qed.

Lemma with_connection_closed (A : Type) (body : M DB A) (st : db_state DB) :
  in_txn (snd (with_connection body st)) = false
  /\ working (snd (with_connection body st)) = durable (snd (with_connection body st)).
Proof.
  unfold with_connection, connect.
  destruct (body _) as [r st2]. split; reflexivity.
Qed.

(** Whatever the statement and whatever happens, the connection is closed
    last, with no transaction left open and no view that differs from the
    stored database. *)
Theorem safe_execute_query_closes (query : string) (p : params) (st : db_state DB) :
  in_txn (snd (safe_execute_query run_stmt implicit_begin commit_error query p st)) = false
  /\ working (snd (safe_execute_query run_stmt implicit_begin commit_error query p st))
     = durable (snd (safe_execute_query run_stmt implicit_begin commit_error query p st))
  /\ exists l,
       calls (snd (safe_execute_query run_stmt implicit_begin commit_error query p st))
       = (calls st ++ Connect :: l ++ [Close])%list.
Proof.
  split; [apply with_connection_closed|]. split; [apply with_connection_closed|].
  destruct (is_read_query query) eqn:Hread.
  - exists [Execute query (bound_params p)].
    now rewrite safe_execute_query_read.
  - destruct (is_begin query) eqn:Hbegin.
    + rewrite safe_execute_query_begin by assumption.
      exists [Execute "BEGIN TRANSACTION" None; Execute query (bound_params p); Rollback].
      reflexivity.
    + rewrite safe_execute_query_not_read by assumption.
      destruct (run_stmt query (bound_params p) (durable st)) as [db' rows n | e db'].
      * destruct (commit_error db').
        -- exists [Execute "BEGIN TRANSACTION" None; Execute query (bound_params p);
                   Commit; Rollback]. reflexivity.
        -- exists [Execute "BEGIN TRANSACTION" None; Execute query (bound_params p);
                   Commit]. reflexivity.
      * exists [Execute "BEGIN TRANSACTION" None; Execute query (bound_params p); Rollback].
        reflexivity.
Qed.

End SafeExecute.

(** The first insert of [test_transaction_safety.py], into the empty
    table. *)
Lemma safe_execute_query_all_or_nothing_sample :
  exists db' rows n,
    Sample.run_stmt
      "INSERT INTO test_safety (id, name) VALUES (1, 'Will fail due to duplicate ID')"
      None [] = StmtDone db' rows n
    /\ Sample.commit_error db' = None
    /\ durable (snd (Sample.safe_execute_query
                       "INSERT INTO test_safety (id, name) VALUES (1, 'Will fail due to duplicate ID')"
                       None (DbState [] [] false [])))
       = db'
    /\ [[("affected_rows", PInt 1)]] = [[("affected_rows", PInt n)]].
Proof.
  exact (@safe_execute_query_all_or_nothing _ Sample.run_stmt Sample.implicit_begin
           Sample.commit_error
           "INSERT INTO test_safety (id, name) VALUES (1, 'Will fail due to duplicate ID')"
           None (DbState [] [] false []) eq_refl).
Defined.

(** ** [_execute_query]: the write path *)

Lemma is_write_query_not_begin (query : string) :
  is_write_query query = true -> is_begin query = false.
Proof.
  rewrite is_write_query_classes. intros H.
  apply orb_prop in H. destruct H as [H|H].
  - now apply write_class_not_begin.
  - now apply schema_class_not_begin.
Qed.

Section ExecuteWrite.

Variable DB : Type.
Variable run_stmt : string -> params -> DB -> stmt_outcome DB.
Variable implicit_begin : string -> bool.
Variable commit_error : DB -> option exn.
Variable json_loads : pyval -> loads_outcome.
Variable JSONB_ENABLED : bool.
Variable has_jsonb_support : bool.
Variable is_json_related : exn -> pyval -> params -> bool.
Variable suggestions : exn -> pyval -> params -> list string.
Variable json_error_message : exn -> string -> string.

(** The run of a statement on the write path, by what the engine does.  The
    statement that counts is the one after the rewriting. *)
Lemma execute_query_write_run (query : string) (p : params) (st : db_state DB) :
  is_write_query (jsonb_query json_loads JSONB_ENABLED has_jsonb_support query p) = true ->
  _execute_query run_stmt implicit_begin commit_error json_loads
    JSONB_ENABLED has_jsonb_support is_json_related suggestions json_error_message
    query p st
  = let sent := jsonb_query json_loads JSONB_ENABLED has_jsonb_support query p in
    match run_stmt sent (bound_params p) (durable st) with
    | StmtDone db' _ n =>
        match (if implicit_begin sent then commit_error db' else None) with
        | Some e =>
            (Raise (enrich is_json_related suggestions json_error_message e sent p),
             DbState (durable st) (durable st) false
               (calls st ++ [Connect; Execute sent (bound_params p); Commit; Close]))
        | None =>
            (Ok [[("affected_rows", PInt n)]],
             DbState db' db' false
               (calls st ++ [Connect; Execute sent (bound_params p); Commit; Close]))
        end
    | StmtFailed e db' =>
        (Raise (enrich is_json_related suggestions json_error_message e sent p),
         DbState (if implicit_begin sent then durable st else db')
                 (if implicit_begin sent then durable st else db') false
           (calls st ++ [Connect; Execute sent (bound_params p); Close]))
    end.
Proof.
  intros Hwrite. cbv zeta.
  unfold _execute_query. rewrite execute_bound.
  set (sent := jsonb_query json_loads JSONB_ENABLED has_jsonb_support query p) in *.
  unfold with_connection, try_except, bind, raise, connect. cbn [snd fst].
  rewrite cursor_execute_stmt by now apply is_write_query_not_begin.
  cbn [working in_txn orb].
  destruct (run_stmt sent (bound_params p) (durable st)) as [db' rows n | e db'].
  - rewrite Hwrite. unfold commit, after_stmt, record_call, ret, close.
    cbn [in_txn working durable calls fst snd rowcount].
    destruct (implicit_begin sent).
    + destruct (commit_error db'); cbn [fst snd durable calls];
        repeat rewrite <- app_assoc; reflexivity.
    + cbn [fst snd durable calls]. repeat rewrite <- app_assoc. reflexivity.
  - unfold after_stmt, record_call, close. cbn [in_txn working durable calls fst snd].
    destruct (implicit_begin sent); repeat rewrite <- app_assoc; reflexivity.
Qed.

(** A statement on the write path.  When the engine completes it, a commit
    follows, and the answer is its row count with the stored database the
    view it left, unless the commit is refused, which leaves the stored
    database as it was.  When the engine fails it, the error is raised after
    enrichment and nothing follows on the connection but its closing:
    neither commit nor rollback.  What the failed statement changed is lost
    with the connection when the driver had opened a transaction for it, and
    is stored otherwise. *)
Theorem execute_query_write_path (query : string) (p : params) (st : db_state DB) :
  is_write_query (jsonb_query json_loads JSONB_ENABLED has_jsonb_support query p) = true ->
  let sent := jsonb_query json_loads JSONB_ENABLED has_jsonb_support query p in
  let out := _execute_query run_stmt implicit_begin commit_error json_loads
               JSONB_ENABLED has_jsonb_support is_json_related suggestions
               json_error_message query p st in
  match run_stmt sent (bound_params p) (durable st) with
  | StmtDone db' _ n =>
      calls (snd out)
      = (calls st ++ [Connect; Execute sent (bound_params p); Commit; Close])%list
      /\ match fst out with
         | Ok answer => answer = [[("affected_rows", PInt n)]] /\ durable (snd out) = db'
         | Raise _ => durable (snd out) = durable st
         end
  | StmtFailed e db' =>
      fst out = Raise (enrich is_json_related suggestions json_error_message e sent p)
      /\ calls (snd out)
         = (calls st ++ [Connect; Execute sent (bound_params p); Close])%list
      /\ durable (snd out) = (if implicit_begin sent then durable st else db')
  end.
Proof.
  intros Hwrite sent out. subst out.
  rewrite execute_query_write_run by exact Hwrite. cbv zeta. fold sent.
  destruct (run_stmt sent (bound_params p) (durable st)) as [db' rows n | e db'].
  - destruct (if implicit_begin sent then commit_error db' else None);
      cbn [fst snd calls durable]; repeat split.
  - cbn [fst snd calls durable]. repeat split.
Qed.

End ExecuteWrite.

(** The failing insert of [test_transaction_safety.py] sent through
    [_execute_query]. *)
Lemma execute_query_write_path_sample :
  fst (Sample._execute_query true true
         "INSERT OR FAIL INTO test_safety (id, name) VALUES (2, 'b'), (1, 'a')"
         None Sample.one_row)
  = Raise Sample.integrity_error
  /\ calls (snd (Sample._execute_query true true
                   "INSERT OR FAIL INTO test_safety (id, name) VALUES (2, 'b'), (1, 'a')"
                   None Sample.one_row))
     = [Connect;
        Execute "INSERT OR FAIL INTO test_safety (id, name) VALUES (2, 'b'), (1, 'a')" None;
        Close]
  /\ durable (snd (Sample._execute_query true true
                     "INSERT OR FAIL INTO test_safety (id, name) VALUES (2, 'b'), (1, 'a')"
                     None Sample.one_row))
     = [(1%Z, "Test 1")].
Proof.
  exact (@execute_query_write_path _ Sample.run_stmt Sample.implicit_begin
           Sample.commit_error Sample.json_loads true true
           Sample.is_json_related Sample.suggestions Sample.json_error_message
           "INSERT OR FAIL INTO test_safety (id, name) VALUES (2, 'b'), (1, 'a')"
           None Sample.one_row eq_refl).
Defined.

(** ** The rewriting of the statement *)

Lemma prefix_app_self (p x : string) : String.prefix p (p ++ x) = true.
Proof.
  induction p as [|a p IH]; simpl.
  - apply prefix_nil.
  - destruct (ascii_dec a a); [exact IH | contradiction].
Qed.

(** Where the replaced text occurs, the result has the new text. *)
Lemma replace_from_has_new (o : ascii) (old new s : string) :
  Text.contains s (String o old) = true ->
  Text.contains (Text.replace_from 0 (String o old) new s) new = true.
Proof.
  induction s as [|c s IH]; intros H.
  - discriminate H.
  - cbn [Text.replace_from]. cbn [Text.contains] in H.
    destruct (String.prefix (String o old) (String c s)) eqn:P.
    + apply contains_prefix, prefix_app_self.
    + apply contains_tail, IH. exact H.
Qed.

Section Rewriting.

Variable json_loads : pyval -> loads_outcome.
Variable JSONB_ENABLED : bool.
Variable has_jsonb_support : bool.

(** The statement is sent as it is, unless all of this holds: binary JSON is
    on, the statement is an INSERT or UPDATE, the parameters are a mapping
    whose metadata entry is truthy, and the statement has no "jsonb(?)";
    then it is sent with "metadata = ?" replaced. *)
Lemma jsonb_query_cases (query : string) (p : params) :
  jsonb_query json_loads JSONB_ENABLED has_jsonb_support query p = query
  \/ (JSONB_ENABLED = true
      /\ has_jsonb_support = true
      /\ Text.startswith_any (Text.upper (Text.strip query)) ["INSERT"; "UPDATE"] = true
      /\ Text.contains query "jsonb(?)" = false
      /\ (exists d v,
            p = Some (BindDict d)
            /\ dict_get "metadata" d = Some v
            /\ truthy v = true)
      /\ jsonb_query json_loads JSONB_ENABLED has_jsonb_support query p
         = Text.replace query "metadata = ?" "metadata = jsonb(?)").
Proof.
  unfold jsonb_query.
  destruct JSONB_ENABLED; [|now left].
  destruct has_jsonb_support; [|now left].
  cbn [andb].
  destruct (Text.startswith_any _ ["INSERT"; "UPDATE"]) eqn:Hprefix; [|now left].
  cbn [andb].
  destruct (Text.contains query "memory_journal" && Text.contains query "metadata");
    [|now left].
  unfold route_metadata.
  destruct ((Text.contains query "INSERT INTO memory_journal"
             || Text.contains query "UPDATE memory_journal SET")
            && has_metadata_param p) eqn:Hcond; [|now left].
  apply andb_prop in Hcond. destruct Hcond as [_ Hparam].
  destruct p as [[d|l]|]; [| now left | discriminate Hparam].
  unfold metadata_param, params_item.
  destruct (dict_get "metadata" d) as [v|] eqn:Hget; [|now left].
  cbn [rbind rcatch]. destruct (truthy v) eqn:Htruthy; [|now left].
  destruct (validate_json_returns json_loads v) as (b & ->). cbn [rbind rcatch].
  destruct (Text.contains query "jsonb(?)") eqn:Hfresh; [now left|].
  right. repeat split; try reflexivity. exists d, v. repeat split; assumption.
Qed.

(** Without parameters, with positional parameters, and with a mapping that
    has no metadata entry or a falsy one ([None], an empty text, zero), the
    statement is sent as it is; so is a statement that already has
    "jsonb(?)", and one that has no "metadata = ?". *)
Theorem jsonb_query_keeps_statement (query : string) :
  jsonb_query json_loads JSONB_ENABLED has_jsonb_support query None = query
  /\ (forall l,
        jsonb_query json_loads JSONB_ENABLED has_jsonb_support query (Some (BindSeq l))
        = query)
  /\ (forall d,
        match dict_get "metadata" d with
        | Some v => truthy v = false
        | None => True
        end ->
        jsonb_query json_loads JSONB_ENABLED has_jsonb_support query (Some (BindDict d))
        = query)
  /\ (forall p,
        Text.contains query "jsonb(?)" = true ->
        jsonb_query json_loads JSONB_ENABLED has_jsonb_support query p = query)
  /\ (forall p,
        Text.contains query "metadata = ?" = false ->
        jsonb_query json_loads JSONB_ENABLED has_jsonb_support query p = query).
Proof.
  split; [|split; [|split; [|split]]].
  - destruct (jsonb_query_cases query None)
      as [H | (_ & _ & _ & _ & (d & v & E & _) & _)]; [exact H | discriminate E].
  - intros l. destruct (jsonb_query_cases query (Some (BindSeq l)))
      as [H | (_ & _ & _ & _ & (d & v & E & _) & _)]; [exact H | discriminate E].
  - intros d Hd. destruct (jsonb_query_cases query (Some (BindDict d)))
      as [H | (_ & _ & _ & _ & (d' & v & E & Hget & Htruthy) & _)]; [exact H|].
    injection E as <-. rewrite Hget in Hd. congruence.
  - intros p Hhas. destruct (jsonb_query_cases query p)
      as [H | (_ & _ & _ & Hfresh & _)]; [exact H | congruence].
  - intros p Habsent. destruct (jsonb_query_cases query p)
      as [H | (_ & _ & _ & _ & _ & ->)]; [exact H|].
    apply replace_absent; [discriminate | exact Habsent].
Qed.

(** Rewriting what was rewritten changes nothing: a placeholder is wrapped in
    [jsonb] once. *)
Theorem jsonb_query_idempotent (query : string) (p : params) :
  jsonb_query json_loads JSONB_ENABLED has_jsonb_support
    (jsonb_query json_loads JSONB_ENABLED has_jsonb_support query p) p
  = jsonb_query json_loads JSONB_ENABLED has_jsonb_support query p.
Proof.
  destruct (jsonb_query_cases query p) as [H | (_ & _ & _ & _ & _ & H)].
  - now rewrite !H.
  - destruct (Text.contains query "metadata = ?") eqn:Hocc.
    + rewrite H.
      destruct (jsonb_query_cases
                  (Text.replace query "metadata = ?" "metadata = jsonb(?)") p)
        as [H' | (_ & _ & _ & Hfresh & _)]; [exact H'|].
      exfalso.
      pose proof (@replace_from_has_new _ _ "metadata = jsonb(?)" _ Hocc) as Hnew.
      apply (contains_app_right _ "metadata = " "jsonb(?)") in Hnew.
      unfold Text.replace in Hfresh. congruence.
    + assert (E : Text.replace query "metadata = ?" "metadata = jsonb(?)" = query)
        by (apply replace_absent; [discriminate | exact Hocc]).
      rewrite E in H. now rewrite !H.
Qed.

End Rewriting.

(** ** [diagnostics.DiagnosticsService] *)

Module Diagnostics.

Section Service.

Variable json_loads : pyval -> loads_outcome.

(** [DiagnosticsService.validate_json]: only [JSONDecodeError] is caught. *)
Definition validate_json (json_str : pyval) : result dict :=
  match result_of_loads (json_loads json_str) with
  | Ok parsed =>
      Ok [("valid", PBool true); ("parsed", parsed); ("message", PStr "JSON is valid")]
  | Raise e =>
      match exn_kind e with
      | JSONDecodeError =>
          Ok [("valid", PBool false); ("error", PStr (exn_msg e));
              ("message", PStr ("JSON is invalid: " ++ exn_msg e))]
      | _ => Raise e
      end
  end.



(** [DiagnosticsService.get_json_diagnostics] *)
Definition get_json_diagnostics : dict :=
  [("jsonb_support", PBool true); ("validation_available", PBool true);
   ("conversion_available", PBool true); ("status", PStr "operational")].

End Service.

End Diagnostics.

Section DiagnosticsFacts.

Variable json_loads : pyval -> loads_outcome.



End DiagnosticsFacts.

(** ** The memo keeps every insight *)

Lemma prefix_app_mono (p s t : string) :
  String.prefix p s = true -> String.prefix p (s ++ t) = true.
Proof.
  revert s. induction p as [|a p IH]; intros s H.
  - apply prefix_nil.
  - destruct s as [|c s]; simpl in *; [discriminate|].
    destruct (ascii_dec a c); [now apply IH | discriminate].
Qed.

Lemma contains_app_l (s t p : string) :
  Text.contains s p = true -> Text.contains (s ++ t) p = true.
Proof.
  induction s as [|c s IH]; cbn [Text.contains]; intros H.
  - rewrite orb_false_r in H. apply contains_prefix.
    now apply (prefix_app_mono _ "" t).
  - apply orb_prop in H. destruct H as [H|H].
    + apply contains_prefix. now apply (prefix_app_mono _ (String c s) t).
    + change (String c s ++ t) with (String c (s ++ t)). now apply contains_tail, IH.
Qed.

Lemma contains_self (s : string) : Text.contains s s = true.
Proof.
  apply contains_prefix.
  assert (E : s ++ "" = s) by (induction s as [|c s IH]; simpl; congruence).
  rewrite <- E at 2. apply prefix_app_self.
Qed.

Lemma join_has_each (sep x : string) (xs : list string) :
  In x xs -> Text.contains (Text.join sep xs) x = true.
Proof.
  induction xs as [|y rest IH]; intros H.
  - contradiction.
  - cbn [Text.join]. destruct rest as [|z rest'].
    + destruct H as [->|[]]. apply contains_self.
    + destruct H as [->|H].
      * apply contains_prefix, prefix_app_self.
      * apply contains_app_r, contains_app_r, IH, H.
Qed.

Lemma join_snoc (sep y : string) (x : string) (xs : list string) :
  Text.join sep ((x :: xs) ++ [y])%list = Text.join sep (x :: xs) ++ sep ++ y.
Proof.
  revert x. induction xs as [|z xs IH]; intros x.
  - reflexivity.
  - change (Text.join sep ((x :: z :: xs) ++ [y])%list)
      with (x ++ sep ++ Text.join sep ((z :: xs) ++ [y])%list).
    rewrite IH.
    change (Text.join sep (x :: z :: xs)) with (x ++ sep ++ Text.join sep (z :: xs)).
    now rewrite !append_assoc.
Qed.

(** Every insight of the ledger has its bullet in the memo; and appending an
    insight to a ledger that is not empty leaves the header and the bullets
    that were there in front of the memo, in their places. *)
Theorem synthesize_memo_keeps_insights :
  (forall insights insight,
     In insight insights ->
     Text.contains (Memo._synthesize_memo insights) ("- " ++ insight) = true)
  /\ (forall first rest insight,
        String.prefix
          (Memo.header ++ Text.join Memo.newline (map Memo.bullet (first :: rest)))
          (Memo._synthesize_memo (Memo.append_insight (first :: rest) insight))
        = true).
Proof.
  split.
  - intros insights insight H.
    assert (Hbody : Text.contains
                      (Memo.header ++ Text.join Memo.newline (map Memo.bullet insights))
                      ("- " ++ insight) = true).
    { apply contains_app_r, join_has_each.
      change ("- " ++ insight) with (Memo.bullet insight). now apply in_map. }
    unfold Memo._synthesize_memo. destruct insights as [|i rest]; [contradiction|].
    destruct (1 <? List.length (i :: rest))%nat.
    + now apply contains_app_l.
    + exact Hbody.
  - intros first rest insight.
    unfold Memo.append_insight, Memo._synthesize_memo.
    change ((first :: rest) ++ [insight])%list with (first :: (rest ++ [insight]))%list.
    assert (Hlen : (1 <? List.length (first :: (rest ++ [insight])%list))%nat = true).
    { cbn [List.length]. rewrite length_app. simpl. apply Nat.ltb_lt. lia. }
    rewrite Hlen.
    change (first :: (rest ++ [insight]))%list with ((first :: rest) ++ [insight])%list.
    rewrite map_app. cbn [map].
    change (map Memo.bullet (first :: rest))
      with (Memo.bullet first :: map Memo.bullet rest).
    rewrite join_snoc.
    rewrite <- (append_assoc Memo.header), append_assoc, append_assoc.
    rewrite <- (append_assoc Memo.header).
    apply prefix_app_self.
Qed.

(** ** The two executors *)

Lemma read_query_not_write (query : string) :
  is_read_query query = true -> is_write_query query = false.
Proof.
  intros H. rewrite is_write_query_classify.
  apply classify_read in H. now rewrite H.
Qed.

Section TwoExecutors.

Variable DB : Type.
Variable run_stmt : string -> params -> DB -> stmt_outcome DB.
Variable implicit_begin : string -> bool.
Variable commit_error : DB -> option exn.
Variable json_loads : pyval -> loads_outcome.
Variable JSONB_ENABLED : bool.
Variable has_jsonb_support : bool.
Variable is_json_related : exn -> pyval -> params -> bool.
Variable suggestions : exn -> pyval -> params -> list string.
Variable json_error_message : exn -> string -> string.

Lemma safe_execute_query_read_run (query : string) (p : params) (st : db_state DB) :
  is_read_query query = true ->
  safe_execute_query run_stmt implicit_begin commit_error query p st
  = match cursor_execute run_stmt implicit_begin query (bound_params p)
            (snd (connect st)) with
    | (Ok cur, st2) => (Ok (map dict_of_row (fetchall cur)), snd (close st2))
    | (Raise e, st2) => (Raise e, snd (close st2))
    end.
Proof.
  intros Hread. unfold safe_execute_query. rewrite Hread, execute_bound.
  cbn [negb]. unfold with_connection, try_except, bind, raise, connect.
  cbn [snd fst]. unfold ret at 1.
  destruct (cursor_execute _ _ query _ _) as [[cur|e] st2]; reflexivity.
Qed.

Lemma jsonb_query_off (query : string) (p : params) :
  JSONB_ENABLED && has_jsonb_support = false ->
  jsonb_query json_loads JSONB_ENABLED has_jsonb_support query p = query.
Proof. intros H. unfold jsonb_query. now rewrite H. Qed.

(** With binary JSON off, on a SELECT and on a statement of the write path:
    what [safe_execute_query] answers, [_execute_query] answers too, and
    both leave the same stored database. *)
Theorem executors_agree
  (query : string) (p : params) (st : db_state DB) (answer : list dict) :
  JSONB_ENABLED && has_jsonb_support = false ->
  is_read_query query || is_write_query query = true ->
  fst (safe_execute_query run_stmt implicit_begin commit_error query p st) = Ok answer ->
  fst (_execute_query run_stmt implicit_begin commit_error json_loads
         JSONB_ENABLED has_jsonb_support is_json_related suggestions json_error_message
         query p st)
  = Ok answer
  /\ durable (snd (_execute_query run_stmt implicit_begin commit_error json_loads
                     JSONB_ENABLED has_jsonb_support is_json_related suggestions
                     json_error_message query p st))
     = durable (snd (safe_execute_query run_stmt implicit_begin commit_error query p st)).
Proof.
  intros Hoff Hclass.
  destruct (is_read_query query) eqn:Hread.
  - rewrite safe_execute_query_read_run by exact Hread.
    rewrite execute_query_read_run by now apply read_query_not_write.
    rewrite Hoff.
    destruct (cursor_execute _ _ query _ _) as [[cur|e] st2]; cbn [fst snd].
    + intros H. split; [exact H | reflexivity].
    + discriminate.
  - cbn [orb] in Hclass.
    rewrite safe_execute_query_not_read
      by (exact Hread || now apply is_write_query_not_begin).
    rewrite execute_query_write_run by now rewrite jsonb_query_off.
    cbv zeta. rewrite jsonb_query_off by exact Hoff.
    destruct (run_stmt query (bound_params p) (durable st)) as [db' rows n | e db'].
    + destruct (commit_error db') eqn:C; [discriminate|].
      destruct (implicit_begin query); cbn [fst snd durable];
        intros H; (split; [exact H | reflexivity]).
    + discriminate.
Qed.

End TwoExecutors.

(** The SELECT of [test_transaction_safety.py] through both executors. *)
Lemma executors_agree_sample :
  fst (Sample._execute_query false true "SELECT * FROM test_safety" None Sample.one_row)
  = Ok [[("id", PInt 1); ("name", PStr "Test 1")]]
  /\ durable (snd (Sample._execute_query false true "SELECT * FROM test_safety" None
                     Sample.one_row))
     = durable (snd (Sample.safe_execute_query "SELECT * FROM test_safety" None
                       Sample.one_row)).
Proof.
  exact (@executors_agree _ Sample.run_stmt Sample.implicit_begin Sample.commit_error
           Sample.json_loads false true
           Sample.is_json_related Sample.suggestions Sample.json_error_message
           "SELECT * FROM test_safety" None Sample.one_row
           [[("id", PInt 1); ("name", PStr "Test 1")]] eq_refl eq_refl eq_refl).
Defined.

(** ** The tools *)

(** A text that begins with a character that is no white space keeps that
    character in front when it is trimmed. *)
Lemma strip_keeps_first (c : ascii) (s : string) :
  Text.isspace c = false -> exists r, Text.strip (String c s) = String c r.
Proof.
  intros H. unfold Text.strip. cbn [Text.lstrip]. rewrite H.
  cbn [Text.rstrip]. rewrite H.
  destruct (Text.rstrip s) as [|d r]; eauto.
Qed.

Section Tools.

Variable DB : Type.
Variable run_stmt : string -> params -> DB -> stmt_outcome DB.
Variable implicit_begin : string -> bool.
Variable commit_error : DB -> option exn.
Variable json_loads : pyval -> loads_outcome.
Variable JSONB_ENABLED : bool.
Variable has_jsonb_support : bool.
Variable is_json_related : exn -> pyval -> params -> bool.
Variable suggestions : exn -> pyval -> params -> list string.
Variable json_error_message : exn -> string -> string.

(** [str(v)] for a value that is not a text. *)
Variable py_str : pyval -> string.

(** [f"{v}"] *)
Definition format_value (v : pyval) : string :=
  match v with
  | PStr s => s
  | _ => py_str v
  end.

(** [f"PRAGMA table_info({arguments['table_name']})"] *)
Definition describe_table_query (table_name : pyval) : string :=
  "PRAGMA table_info(" ++ format_value table_name ++ ")".

(** Lines 745 to 752 of [handle_call_tool] *)
Definition describe_table_tool (arguments : option dict) : M DB reply :=
  match arguments with
  | Some ((_ :: _) as args) =>
      match dict_get "table_name" args with
      | Some table_name =>
          bind (_execute_query run_stmt implicit_begin commit_error json_loads
                  JSONB_ENABLED has_jsonb_support is_json_related suggestions
                  json_error_message (describe_table_query table_name) None)
               (fun results => ret (ReplyResults results))
      | None => raise (Exn ValueError "Missing table_name argument")
      end
  | _ => raise (Exn ValueError "Missing table_name argument")
  end.

(** [handle_call_tool] for the tool [describe_table] (with lines 953 to
    987). *)
Definition handle_describe_table (arguments : option dict) : M DB reply :=
  try_except (describe_table_tool arguments)
             (fun e => ret (error_reply is_json_related suggestions e arguments)).

Lemma describe_table_query_not_write (table_name : pyval) :
  is_write_query (describe_table_query table_name) = false.
Proof.
  unfold is_write_query, describe_table_query.
  destruct (@strip_keeps_first "P"
              ("RAGMA table_info(" ++ format_value table_name ++ ")") eq_refl)
    as (r & E).
  change ("PRAGMA table_info(" ++ format_value table_name ++ ")")
    with (String "P" ("RAGMA table_info(" ++ format_value table_name ++ ")")).
  rewrite E. reflexivity.
Qed.

(** [describe_table]: without a table name the answer is the error text and
    the engine is not reached; with one, whatever it is, the statement goes
    the read path: the connection sees the PRAGMA with the name as given and
    no commit. *)
Theorem describe_table_reads (arguments : option dict) (st : db_state DB) :
  match arguments with
  | Some args =>
      match dict_get "table_name" args with
      | Some table_name =>
          exists l,
            calls (snd (handle_describe_table arguments st))
            = (calls st ++ Connect
                 :: Execute (describe_table_query table_name) None :: l)%list
            /\ ~ In Commit l
      | None =>
          handle_describe_table arguments st
          = (Ok (ReplyText "Error: Missing table_name argument"), st)
      end
  | None =>
      handle_describe_table arguments st
      = (Ok (ReplyText "Error: Missing table_name argument"), st)
  end.
Proof.
  destruct arguments as [args|]; [|reflexivity].
  destruct (dict_get "table_name" args) as [table_name|] eqn:Hget.
  - destruct args as [|kv rest]; [discriminate Hget|].
    unfold handle_describe_table, describe_table_tool. rewrite Hget.
    unfold try_except, bind, ret.
    destruct (execute_query_read_calls run_stmt implicit_begin commit_error json_loads
                JSONB_ENABLED has_jsonb_support is_json_related suggestions
                json_error_message (describe_table_query table_name) None st
                (describe_table_query_not_write table_name)) as (l & Hl & Hn).
    exists l. split; [|exact Hn].
    destruct (_execute_query _ _ _ _ _ _ _ _ _ _ None st) as [[results|e] st']; exact Hl.
  - unfold handle_describe_table, describe_table_tool. rewrite Hget.
    destruct args; reflexivity.
Qed.

(** [read_query] never commits: whatever its arguments, no commit is among
    the calls it makes. *)
Theorem read_query_never_commits (arguments : option dict) (st : db_state DB) :
  exists l,
    calls (snd (handle_call_tool run_stmt implicit_begin commit_error json_loads
                  JSONB_ENABLED has_jsonb_support is_json_related suggestions
                  json_error_message "read_query" arguments st))
    = (calls st ++ l)%list
    /\ ~ In Commit l.
Proof.
  assert (Hnone : exists l : list call, calls st = (calls st ++ l)%list /\ ~ In Commit l).
  { exists []. split; [now rewrite app_nil_r | intros []]. }
  unfold handle_call_tool, query_tool, try_except, bind, lift, raise, ret.
  destruct arguments as [[|kv rest]|]; [exact Hnone | | exact Hnone].
  cbn [String.eqb Ascii.eqb Bool.eqb andb].
  destruct (query_argument (kv :: rest)) as [q|e]; [|exact Hnone].
  destruct (Text.startswith (Text.upper (Text.strip q)) "SELECT") eqn:Hread;
    [|exact Hnone].
  cbn [negb].
  destruct (execute_query_read_calls run_stmt implicit_begin commit_error json_loads
              JSONB_ENABLED has_jsonb_support is_json_related suggestions
              json_error_message q None st (read_query_not_write q Hread))
    as (l & Hl & Hn).
  exists (Connect :: Execute q (bound_params None) :: l). split.
  - destruct (_execute_query _ _ _ _ _ _ _ _ _ q None st) as [[results|e] st'];
      exact Hl.
  - intros [H|[H|H]]; [discriminate H | discriminate H | contradiction].
Qed.

End Tools.

(** ** The decoding half of the codec, and errors at the tools *)

Section DecodeAndErrors.

Variable DB : Type.
Variable run_stmt : string -> params -> DB -> stmt_outcome DB.
Variable implicit_begin : string -> bool.
Variable commit_error : DB -> option exn.
Variable json_loads : pyval -> loads_outcome.
Variable JSONB_ENABLED : bool.
Variable has_jsonb_support : bool.
Variable is_json_related : exn -> pyval -> params -> bool.
Variable suggestions : exn -> pyval -> params -> list string.
Variable json_error_message : exn -> string -> string.

(** [convert_from_jsonb] never raises and asks the engine exactly once, with
    the value as the parameter of [SELECT json(?)].  When the engine rejects
    the value, and when it answers no row, the result is [None]; otherwise
    it is the first cell of the first row, as the engine gave it. *)
Theorem convert_from_jsonb_asks_engine (value : pyval) (st : db_state DB) :
  calls (snd (convert_from_jsonb run_stmt implicit_begin value st))
  = (calls st ++ [Execute "SELECT json(?)" (Some (BindSeq [value]))])%list
  /\ match run_stmt "SELECT json(?)" (Some (BindSeq [value])) (working st) with
     | StmtFailed _ _ =>
         fst (convert_from_jsonb run_stmt implicit_begin value st) = Ok PNone
     | StmtDone _ [] _ =>
         fst (convert_from_jsonb run_stmt implicit_begin value st) = Ok PNone
     | StmtDone _ (row :: _) _ =>
         fst (convert_from_jsonb run_stmt implicit_begin value st)
         = Ok (match row with (_, cell) :: _ => cell | [] => PNone end)
     end.
Proof.
  rewrite convert_from_jsonb_run. split.
  - pose proof (cursor_execute_calls run_stmt implicit_begin "SELECT json(?)"
                  (Some (BindSeq [value])) st) as C.
    destruct (cursor_execute _ _ _ _ st) as [[cur|e] st']; exact C.
  - rewrite cursor_execute_stmt by reflexivity.
    destruct (run_stmt "SELECT json(?)" (Some (BindSeq [value])) (working st))
      as [db' [|[|[k cell] row] rows] n | e db']; reflexivity.
Qed.

(** The enrichment of an error keeps its class. *)
Lemma enrich_kind (e : exn) (query : string) (p : params) :
  exn_kind (enrich is_json_related suggestions json_error_message e query p)
  = exn_kind e.
Proof. unfold enrich. now destruct (is_json_related e (PStr query) p). Qed.

(** An engine error on a SELECT sent to [read_query] reaches the caller as a
    text that begins with "Database error: ": the enrichment in
    [_execute_query] keeps the class of the error, so the handler of
    [sqlite3.Error] is the one that answers. *)
Theorem read_query_reports_engine_error
  (query : string) (arguments : dict) (st : db_state DB)
  (e : exn) (st2 : db_state DB) :
  dict_get "query" arguments = Some (PStr query) ->
  is_read_query query = true ->
  cursor_execute run_stmt implicit_begin query None (snd (connect st)) = (Raise e, st2) ->
  is_sqlite_error e = true ->
  exists text,
    fst (handle_call_tool run_stmt implicit_begin commit_error json_loads
           JSONB_ENABLED has_jsonb_support is_json_related suggestions
           json_error_message "read_query" (Some arguments) st)
    = Ok (ReplyText ("Database error: " ++ text)).
Proof.
  intros Hget Hread Hfail Hsqlite.
  destruct arguments as [|kv rest]; [discriminate Hget|].
  unfold handle_call_tool, query_tool, try_except, bind, lift, raise, ret,
    query_argument.
  cbn [String.eqb Ascii.eqb Bool.eqb andb]. rewrite Hget.
  unfold is_read_query in Hread. rewrite Hread. cbn [negb].
  pose proof (execute_query_read_result run_stmt implicit_begin commit_error json_loads
                JSONB_ENABLED has_jsonb_support is_json_related suggestions
                json_error_message query None st (read_query_not_write query Hread)) as H.
  change (bound_params None) with (@None binding) in H. rewrite Hfail in H.
  destruct (_execute_query _ _ _ _ _ _ _ _ _ query None st) as [[results|e'] st'];
    cbn [fst] in H; [discriminate H|].
  injection H as ->. cbn [fst].
  unfold error_reply, is_sqlite_error. rewrite enrich_kind.
  unfold is_sqlite_error in Hsqlite. rewrite Hsqlite.
  match goal with
  | |- context [ if ?c then _ else _ ] => destruct c
  end; rewrite ?append_assoc; eexists; reflexivity.
Qed.


End DecodeAndErrors.


(** A SELECT that the sample engine refuses, sent to [read_query]. *)
Lemma read_query_reports_engine_error_sample :
  exists text,
    fst (Sample.handle_call_tool "read_query"
           (Some [("query", PStr "SELECT * FROM missing")]) Sample.one_row)
    = Ok (ReplyText ("Database error: " ++ text)).
Proof.
  exact (@read_query_reports_engine_error _ Sample.run_stmt Sample.implicit_begin
           Sample.commit_error Sample.json_loads true true
           Sample.is_json_related Sample.suggestions Sample.json_error_message
           "SELECT * FROM missing" [("query", PStr "SELECT * FROM missing")]
           Sample.one_row Sample.syntax_error
           (DbState [(1%Z, "Test 1")] [(1%Z, "Test 1")] false
              [Connect; Execute "SELECT * FROM missing" None])
           eq_refl eq_refl eq_refl eq_refl).
Defined.
